(** * Portfolio API: schemas, query construction and request handlers

    A shallow embedding of [schemas.py] and [main.py].

    - Python values (JSON-like documents, keyword arguments, query
      dictionaries) are one inductive type [value]; a [dict] is a
      [gmap string value].
    - A Python [str] is a [string]: a sequence of code units.  The literals
      of the source are kept byte for byte; slicing counts code units.
    - Exceptions are values of [exn]; code that mutates an object or the
      store and may raise lives in the monad [py S], in which the state
      reached when the exception was raised is kept.
    - Pydantic models are records, one module per class, with the
      validation a constructor call performs ([validate]) and the mapping a
      model is stored as ([dump]). *)

From Stdlib Require Import ZArith Ascii String.
From stdpp Require Import gmap strings list fin_maps.

Set Warnings "-register-all".
Local Open Scope string_scope.
Local Open Scope list_scope.

(** ** Python values *)

Inductive value :=
  | VNone
  | VBool (b : bool)
  | VInt (z : Z)
  | VFloat (m e : Z)        (* the decimal literal m * 10^e, never inspected *)
  | VStr (s : string)
  | VObjectId (n : N)       (* identifier assigned by the store *)
  | VList (l : list value)
  | VDict (d : gmap string value).

#[global] Instance value_eq_dec : EqDecision value.
Proof.
  refine (fix go (v1 v2 : value) : Decision (v1 = v2) :=
    let _ : EqDecision value := @go in
    match v1, v2 with
    | VNone, VNone => left _
    | VBool a, VBool b => cast_if (decide (a = b))
    | VInt a, VInt b => cast_if (decide (a = b))
    | VFloat a1 a2, VFloat b1 b2 => cast_if_and (decide (a1 = b1)) (decide (a2 = b2))
    | VStr a, VStr b => cast_if (decide (a = b))
    | VObjectId a, VObjectId b => cast_if (decide (a = b))
    | VList a, VList b => cast_if (decide (a = b))
    | VDict a, VDict b => cast_if (decide (a = b))
    | _, _ => right _
    end); abstract congruence.
Defined.

(** A document of the store, the keyword arguments of a constructor call and
    a query are all Python dicts. *)
Abbreviation dict := (gmap string value).

(** Truthiness of the optional request parameters ([if domain:], [if year:],
    [if q:]): [None], the empty string and [0] are falsy. *)
Definition truthy_str (o : option string) : bool :=
  match o with
  | Some s => negb (bool_decide (s = ""))
  | None => false
  end.

Definition truthy_int (o : option Z) : bool :=
  match o with
  | Some z => negb (bool_decide (z = 0%Z))
  | None => false
  end.

(** [s[:n]] *)
Fixpoint str_take (n : nat) (s : string) : string :=
  match n, s with
  | S n', String c s' => String c (str_take n' s')
  | _, _ => ""
  end.

(** [s[n:]] *)
Fixpoint str_drop (n : nat) (s : string) : string :=
  match n, s with
  | S n', String _ s' => str_drop n' s'
  | _, _ => s
  end.

(** ** Exceptions and the monad of handlers *)

Inductive exn :=
  | HTTPException (status_code : Z) (detail : string)
  | ValidationError (errors : list (string * string))   (* (field, error type) *)
  | Exception (msg : string).

(** [str(e)] *)
Definition exn_str (e : exn) : string :=
  match e with
  | HTTPException c d => d
  | ValidationError errs =>
      foldr (fun fe acc => fe.1 +:+ ": " +:+ fe.2 +:+ "; " +:+ acc) "" errs
  | Exception msg => msg
  end.

Inductive result (A : Type) :=
  | Ok (a : A)
  | Raise (e : exn).
Arguments Ok {A} a.
Arguments Raise {A} e.

#[global] Instance result_ret : MRet result := λ A a, Ok a.
#[global] Instance result_bind : MBind result := λ A B f r,
  match r with
  | Ok a => f a
  | Raise e => Raise e
  end.

(** A computation over a mutable state [S] that returns or raises; the state
    survives a raise, as a mutated Python object does. *)
Definition py (S A : Type) : Type := S → result A * S.

#[global] Instance py_ret {S} : MRet (py S) := λ A a s, (Ok a, s).
#[global] Instance py_bind {S} : MBind (py S) := λ A B f m s,
  match m s with
  | (Ok a, s') => f a s'
  | (Raise e, s') => (Raise e, s')
  end.

Definition raise {S A} (e : exn) : py S A := λ s, (Raise e, s).
Definition get_state {S} : py S S := λ s, (Ok s, s).
Definition modify {S} (f : S → S) : py S unit := λ s, (Ok tt, f s).

(** [try: body except Exception as e: handler e] *)
Definition try_except {S A} (body : py S A) (handler : exn → py S A) : py S A :=
  λ s, match body s with
       | (Ok a, s') => (Ok a, s')
       | (Raise e, s') => handler e s'
       end.

(** [for x in xs: body x] *)
Fixpoint for_each {S A} (xs : list A) (body : A → py S unit) : py S unit :=
  match xs with
  | [] => mret tt
  | x :: xs' => body x ≫= λ _, for_each xs' body
  end.

(** ** Schema layer ([schemas.py])

    A constructor call on keyword arguments [kwargs] checks every declared
    field and collects the errors of all of them; keys that are not fields
    are ignored.  Scalar annotations are checked for their exact type. *)

Inductive checked (A : Type) :=
  | Valid (a : A)
  | Invalid (errors : list (string * string)).
Arguments Valid {A} a.
Arguments Invalid {A} errors.

(** Apply a checked constructor to one more checked field, keeping the
    errors of both sides. *)
Definition ap {A B} (f : checked (A → B)) (x : checked A) : checked B :=
  match f, x with
  | Valid g, Valid a => Valid (g a)
  | Valid _, Invalid e => Invalid e
  | Invalid e, Valid _ => Invalid e
  | Invalid e1, Invalid e2 => Invalid (e1 ++ e2)
  end.
Infix "<*>" := ap (at level 61, left associativity).

Definition to_result {A} (c : checked A) : result A :=
  match c with
  | Valid a => Ok a
  | Invalid errs => Raise (ValidationError errs)
  end.

(** A field check yields the field's value or the type of its error. *)
Definition check (A : Type) : Type := option value → string + A.

Definition field {A} (kwargs : dict) (name : string) (chk : check A) : checked A :=
  match chk (kwargs !! name) with
  | inr a => Valid a
  | inl e => Invalid [(name, e)]
  end.

(** [name: T] *)
Definition required {A} (chk : value → string + A) : check A := λ o,
  match o with
  | Some v => chk v
  | None => inl "missing"
  end.

(** [name: T = default] *)
Definition with_default {A} (default : A) (chk : value → string + A) : check A := λ o,
  match o with
  | Some v => chk v
  | None => inr default
  end.

(** [str] *)
Definition str_type (v : value) : string + string :=
  match v with
  | VStr s => inr s
  | _ => inl "string_type"
  end.

(** [int] *)
Definition int_type (v : value) : string + Z :=
  match v with
  | VInt z => inr z
  | _ => inl "int_type"
  end.

(** [Literal[...]] *)
Definition literal (allowed : list string) (v : value) : string + string :=
  match v with
  | VStr s => if bool_decide (s ∈ allowed) then inr s else inl "literal_error"
  | _ => inl "literal_error"
  end.

Fixpoint all_items {A} (chk : value → string + A) (l : list value) : string + list A :=
  match l with
  | [] => inr []
  | v :: l' =>
      match chk v, all_items chk l' with
      | inr a, inr l'' => inr (a :: l'')
      | inl e, _ => inl e
      | _, inl e => inl e
      end
  end.

(** [List[T]] *)
Definition list_type {A} (chk : value → string + A) (v : value) : string + list A :=
  match v with
  | VList l => all_items chk l
  | _ => inl "list_type"
  end.

(** [Optional[T]] *)
Definition optional {A} (chk : value → string + A) (v : value) : string + option A :=
  match v with
  | VNone => inr None
  | _ => match chk v with
         | inr a => inr (Some a)
         | inl e => inl e
         end
  end.

(** [HttpUrl]: the scheme [http] or [https] followed by a host that is not
    empty. *)
Definition url_host (s : string) : option string :=
  if String.prefix "http://" s then Some (str_drop 7 s)
  else if String.prefix "https://" s then Some (str_drop 8 s)
  else None.

Definition http_url (s : string) : bool :=
  match url_host s with
  | Some (String c _) =>
      negb (bool_decide (c = "/"%char ∨ c = "?"%char ∨ c = "#"%char))
  | _ => false
  end.

Definition url_type (v : value) : string + string :=
  match v with
  | VStr s => if http_url s then inr s else inl "url_parsing"
  | _ => inl "url_type"
  end.

(** [Dict[str, Any]] *)
Definition dict_type (v : value) : string + dict :=
  match v with
  | VDict d => inr d
  | _ => inl "dict_type"
  end.

Definition dump_opt {A} (f : A → value) (o : option A) : value :=
  match o with
  | Some a => f a
  | None => VNone
  end.

Definition dump_strs (l : list string) : value := VList (VStr <$> l).

Module Project.

Definition domains : list string :=
  ["ML"; "Analytics"; "Visualization"; "NLP"; "CV"; "Time Series"; "MLOps"; "Other"].

Record t := Build {
  title : string;
  slug : string;
  summary : string;
  domain : string;
  stack : list string;
  year : Z;
  problem : string;
  approach : string;
  dataset : string;
  model : string;
  results : string;
  impact : string;
  github_url : option string;
  demo_url : option string;
  tags : list string;
  plotly_fig : option dict
}.

Definition check_fields (kwargs : dict) : checked t :=
  Valid Build
    <*> field kwargs "title" (required str_type)
    <*> field kwargs "slug" (required str_type)
    <*> field kwargs "summary" (required str_type)
    <*> field kwargs "domain" (required (literal domains))
    <*> field kwargs "stack" (with_default [] (list_type str_type))
    <*> field kwargs "year" (required int_type)
    <*> field kwargs "problem" (required str_type)
    <*> field kwargs "approach" (required str_type)
    <*> field kwargs "dataset" (required str_type)
    <*> field kwargs "model" (required str_type)
    <*> field kwargs "results" (required str_type)
    <*> field kwargs "impact" (required str_type)
    <*> field kwargs "github_url" (with_default None (optional url_type))
    <*> field kwargs "demo_url" (with_default None (optional url_type))
    <*> field kwargs "tags" (with_default [] (list_type str_type))
    <*> field kwargs "plotly_fig" (with_default None (optional dict_type)).

(** The constructor call of [Project] on the keyword arguments [kwargs]. *)
Definition validate (kwargs : dict) : result t := to_result (check_fields kwargs).

(** The mapping a model instance is stored as. *)
Definition dump (p : t) : dict :=
  <["title" := VStr (title p)]> $
  <["slug" := VStr (slug p)]> $
  <["summary" := VStr (summary p)]> $
  <["domain" := VStr (domain p)]> $
  <["stack" := dump_strs (stack p)]> $
  <["year" := VInt (year p)]> $
  <["problem" := VStr (problem p)]> $
  <["approach" := VStr (approach p)]> $
  <["dataset" := VStr (dataset p)]> $
  <["model" := VStr (model p)]> $
  <["results" := VStr (results p)]> $
  <["impact" := VStr (impact p)]> $
  <["github_url" := dump_opt VStr (github_url p)]> $
  <["demo_url" := dump_opt VStr (demo_url p)]> $
  <["tags" := dump_strs (tags p)]> $
  <["plotly_fig" := dump_opt VDict (plotly_fig p)]> ∅.

End Project.

Module Publication.

Definition kinds : list string := ["paper"; "talk"; "workshop"].

Record t := Build {
  title : string;
  venue : string;
  year : Z;
  authors : list string;
  link : option string;
  slides_url : option string;
  kind : string
}.

Definition check_fields (kwargs : dict) : checked t :=
  Valid Build
    <*> field kwargs "title" (required str_type)
    <*> field kwargs "venue" (required str_type)
    <*> field kwargs "year" (required int_type)
    <*> field kwargs "authors" (required (list_type str_type))
    <*> field kwargs "link" (with_default None (optional url_type))
    <*> field kwargs "slides_url" (with_default None (optional url_type))
    <*> field kwargs "kind" (with_default "paper" (literal kinds)).

(** The constructor call of [Publication] on the keyword arguments [kwargs]. *)
Definition validate (kwargs : dict) : result t := to_result (check_fields kwargs).

End Publication.

Module BlogPost.

Record t := Build {
  title : string;
  slug : string;
  excerpt : string;
  body : string;
  topics : list string;
  published_at : string
}.

Definition check_fields (kwargs : dict) : checked t :=
  Valid Build
    <*> field kwargs "title" (required str_type)
    <*> field kwargs "slug" (required str_type)
    <*> field kwargs "excerpt" (required str_type)
    <*> field kwargs "body" (required str_type)
    <*> field kwargs "topics" (with_default [] (list_type str_type))
    <*> field kwargs "published_at" (required str_type).

(** The constructor call of [BlogPost] on the keyword arguments [kwargs]. *)
Definition validate (kwargs : dict) : result t := to_result (check_fields kwargs).

End BlogPost.

Module ContactMessage.

Record t := Build {
  name : string;
  email : string;
  message : string;
  source : option string
}.

Definition check_fields (kwargs : dict) : checked t :=
  Valid Build
    <*> field kwargs "name" (required str_type)
    <*> field kwargs "email" (required str_type)
    <*> field kwargs "message" (required str_type)
    <*> field kwargs "source" (with_default None (optional str_type)).

(** The constructor call of [ContactMessage] on the keyword arguments [kwargs]. *)
Definition validate (kwargs : dict) : result t := to_result (check_fields kwargs).

(** The mapping a model instance is stored as. *)
Definition dump (m : t) : dict :=
  <["name" := VStr (name m)]> $
  <["email" := VStr (email m)]> $
  <["message" := VStr (message m)]> $
  <["source" := dump_opt VStr (source m)]> ∅.

End ContactMessage.

(** [bool] *)
Definition bool_type (v : value) : string + bool :=
  match v with
  | VBool b => inr b
  | _ => inl "bool_type"
  end.

(** [int] under [Field(ge=lo, le=hi)] *)
Definition int_between (lo hi : Z) (v : value) : string + Z :=
  match v with
  | VInt z =>
      if (z <? lo)%Z then inl "greater_than_equal"
      else if (hi <? z)%Z then inl "less_than_equal"
      else inr z
  | _ => inl "int_type"
  end.

Module User.

Record t := Build {
  name : string;
  email : string;
  address : string;
  age : option Z;
  is_active : bool
}.

Definition check_fields (kwargs : dict) : checked t :=
  Valid Build
    <*> field kwargs "name" (required str_type)
    <*> field kwargs "email" (required str_type)
    <*> field kwargs "address" (required str_type)
    <*> field kwargs "age" (with_default None (optional (int_between 0 120)))
    <*> field kwargs "is_active" (with_default true bool_type).

(** The constructor call of [User] on the keyword arguments [kwargs]. *)
Definition validate (kwargs : dict) : result t := to_result (check_fields kwargs).

End User.

(** ** The document store

    [db] is the module-level handle of [database.py]: [None] when the store
    is not configured.  A configured handle may still be unreachable; every
    driver call then raises with the driver's message. *)

Module Database.

Record t := Build {
  name : string;
  unreachable : option string;
  collections : gmap string (list dict);
  next_id : N
}.

(** The documents of a collection; a collection never written is empty. *)
Definition docs (coll : string) (d : t) : list dict := collections d !!! coll.

(** The driver's insert: the document is stored last in its collection
    under a fresh identifier. *)
Definition insert_one (coll : string) (doc : dict) (d : t) : value * t :=
  let id := VObjectId (next_id d) in
  (id, {| name := name d;
          unreachable := unreachable d;
          collections := <[coll := docs coll d ++ [<["_id" := id]> doc]]> (collections d);
          next_id := N.succ (next_id d) |}).

End Database.

(** A dict literal without repeated keys. *)
Definition dict_of (items : list (string * value)) : dict := list_to_map items.

Definition lift {S A} (r : result A) : py S A := λ s, (r, s).

Section Store.

(** The store's regular-expression search: pattern, options, subject. *)
Variable regex_search : string → string → string → bool.

(** *** Queries

    A query is a dict.  A key [k] bound to a plain value asks for a field
    equal to it; bound to an operator document with [$regex] it asks for a
    field the pattern is found in; an array field satisfies either when
    one of its elements does.  [$or] is bound to a list of queries, one of
    which has to match.  All keys of a query have to hold. *)

Definition field_eq (d : dict) (k : string) (v : value) : bool :=
  match d !! k with
  | Some w =>
      bool_decide (w = v)
      || match w with
         | VList l => bool_decide (v ∈ l)
         | _ => false
         end
  | None => false
  end.

Definition regex_value (pattern options : string) (w : value) : bool :=
  match w with
  | VStr s => regex_search pattern options s
  | _ => false
  end.

Definition field_regex (d : dict) (k pattern options : string) : bool :=
  match d !! k with
  | Some (VList l) => existsb (regex_value pattern options) l
  | Some w => regex_value pattern options w
  | None => false
  end.

Definition regex_operator (ops : dict) : option (string * string) :=
  match ops !! "$regex" with
  | Some (VStr pattern) =>
      Some (pattern, match ops !! "$options" with
                     | Some (VStr options) => options
                     | _ => ""
                     end)
  | _ => None
  end.

Fixpoint clause (d : dict) (k : string) (v : value) {struct v} : bool :=
  if bool_decide (k = "$or") then
    match v with
    | VList qs =>
        existsb (λ q, match q with
                      | VDict m => map_fold (λ k' v' acc, clause d k' v' && acc) true m
                      | _ => false
                      end) qs
    | _ => false
    end
  else
    match v with
    | VDict ops =>
        match regex_operator ops with
        | Some (pattern, options) => field_regex d k pattern options
        | None => field_eq d k v
        end
    | _ => field_eq d k v
    end.

Definition matches (query d : dict) : bool :=
  map_fold (λ k v acc, clause d k v && acc) true query.

(** *** Driver calls made by [main.py] *)

(** [db.list_collection_names()] *)
Definition list_collection_names (d : Database.t) : result (list string) :=
  match Database.unreachable d with
  | Some msg => Raise (Exception msg)
  | None => Ok (map_to_list (Database.collections d)).*1
  end.

(** [db[coll].count_documents(query)] *)
Definition count_documents (coll : string) (query : dict) : py (option Database.t) Z :=
  λ db, match db with
        | None => (Raise (Exception "'NoneType' object is not subscriptable"), db)
        | Some d =>
            match Database.unreachable d with
            | Some msg => (Raise (Exception msg), db)
            | None =>
                (Ok (Z.of_nat (length (List.filter (matches query) (Database.docs coll d)))), db)
            end
        end.

(** *** The helpers of [database.py] *)

(** Modelled from the spec: [create_document] of [database.py], which is
    not among the sources.  The adapter's insert: it persists the document
    and returns the identifier the store assigned; it fails when the store
    is unconfigured or unreachable.  A model instance is passed as the
    mapping it is stored as. *)
Definition create_document (coll : string) (data : dict) : py (option Database.t) value :=
  λ db, match db with
        | None => (Raise (Exception "Database not available"), db)
        | Some d =>
            match Database.unreachable d with
            | Some msg => (Raise (Exception msg), db)
            | None => let '(id, d') := Database.insert_one coll data d in (Ok id, Some d')
            end
        end.

(** Modelled from the spec: [get_documents] of [database.py], which is not
    among the sources.  The adapter's find: the documents of the
    collection that match the filter, in the order the store holds them;
    it fails when the store is unconfigured or unreachable. *)
Definition get_documents (coll : string) (query : dict) : py (option Database.t) (list dict) :=
  λ db, match db with
        | None => (Raise (Exception "Database not available"), db)
        | Some d =>
            match Database.unreachable d with
            | Some msg => (Raise (Exception msg), db)
            | None => (Ok (List.filter (matches query) (Database.docs coll d)), db)
            end
        end.

(** ** Request handlers ([main.py]) *)

(** [os.getenv] reads the process environment [env]. *)
Definition getenv (env : gmap string string) (k : string) : option string := env !! k.

Definition test_database (db : option Database.t) (env : gmap string string) : result dict :=
  let response : dict :=
    dict_of [("backend", VStr "✅ Running");
             ("database", VStr "❌ Not Available");
             ("database_url", VNone);
             ("database_name", VNone);
             ("connection_status", VStr "Not Connected");
             ("collections", VList [])] in
  let body : py dict unit :=
    try_except
      (match db with
       | Some d =>
           modify <["database" := VStr "✅ Connected & Working"]>;;
           modify <["database_url" :=
             VStr (if truthy_str (getenv env "DATABASE_URL") then "✅ Set" else "❌ Not Set")]>;;
           modify <["database_name" :=
             VStr (if truthy_str (Some (Database.name d)) then Database.name d
                   else if truthy_str (getenv env "DATABASE_NAME") then "✅ Set"
                   else "❌ Not Set")]>;;
           modify <["connection_status" := VStr "Connected"]>;;
           try_except
             (names ← lift (list_collection_names d);
              modify <["collections" := VList (VStr <$> take 10 names)]>)
             (λ e, modify <["database" :=
                VStr ("⚠️ Connected but error: " +:+ str_take 80 (exn_str e))]>)
       | None => modify <["database" := VStr "⚠️ Available but not initialized"]>
       end)
      (λ e, modify <["database" := VStr ("❌ Error: " +:+ str_take 80 (exn_str e))]>) in
  ((body;; get_state) response).1.

(** The sample content of [seed_content]. *)
Definition sample_projects : list dict :=
  [ dict_of
      [("title", VStr "Customer Churn Prediction");
       ("slug", VStr "customer-churn-prediction");
       ("summary", VStr "Predict churn with explainable ML to prioritize retention actions.");
       ("domain", VStr "ML");
       ("stack", VList [VStr "Python"; VStr "scikit-learn"; VStr "XGBoost"; VStr "SHAP"]);
       ("year", VInt 2023);
       ("problem", VStr "Identify customers likely to churn in the next 60 days.");
       ("approach", VStr "Feature engineering + gradient boosting with class-weighting and calibration.");
       ("dataset", VStr "Telco churn dataset + proprietary CRM features.");
       ("model", VStr "XGBoost with Bayesian optimization; SHAP for interpretability.");
       ("results", VStr "AUC 0.89, recall 76% at 15% alert rate.");
       ("impact", VStr "Reduced churn by 5.2% in pilot, saving ~$1.1M ARR.");
       ("github_url", VStr "https://github.com/");
       ("tags", VList [VStr "classification"; VStr "retention"; VStr "explainability"]);
       ("plotly_fig", VDict (dict_of
          [("data", VList [VDict (dict_of
             [("type", VStr "bar");
              ("x", VList [VStr "Contract"; VStr "Tenure"; VStr "MonthlyCharges"]);
              ("y", VList [VFloat 34 (-2); VFloat 27 (-2); VFloat 18 (-2)])])]);
           ("layout", VDict (dict_of [("title", VStr "Top Features (SHAP)")]))]))];
    dict_of
      [("title", VStr "Demand Forecasting with Hierarchical Time Series");
       ("slug", VStr "demand-forecasting-hts");
       ("summary", VStr "Weekly forecasts across 120 SKUs with reconciliation and uncertainty.");
       ("domain", VStr "Time Series");
       ("stack", VList [VStr "Python"; VStr "Prophet"; VStr "statsmodels"; VStr "scikit-learn"]);
       ("year", VInt 2022);
       ("problem", VStr "Improve inventory planning across regions and SKUs.");
       ("approach", VStr "Feature-rich SARIMAX + gradient boosting for residuals; hierarchical reconciliation.");
       ("dataset", VStr "Sales transactions 3 years + promo calendar.");
       ("model", VStr "SARIMAX + LightGBM residual model.");
       ("results", VStr "MAPE 8.6% overall; stockouts down 23%.");
       ("impact", VStr "Saved $420k in holding and lost sales.");
       ("github_url", VStr "https://github.com/");
       ("tags", VList [VStr "forecasting"; VStr "inventory"; VStr "hts"])];
    dict_of
      [("title", VStr "Interactive Mobility Dashboard");
       ("slug", VStr "mobility-dashboard");
       ("summary", VStr "City mobility patterns explored via interactive geovisualizations.");
       ("domain", VStr "Visualization");
       ("stack", VList [VStr "Python"; VStr "Altair"; VStr "Deck.gl"]);
       ("year", VInt 2024);
       ("problem", VStr "Understand peak congestion corridors.");
       ("approach", VStr "Aggregated GPS pings and derived OD matrices; built interactive views.");
       ("dataset", VStr "1.2B GPS pings over 6 months.");
       ("model", VStr "Clustering + KDE for hotspots.");
       ("results", VStr "Revealed 3 critical choke points.");
       ("impact", VStr "Informed signal timing policy saving ~8% commute time.");
       ("github_url", VStr "https://github.com/");
       ("tags", VList [VStr "geospatial"; VStr "altair"; VStr "dashboard"])] ].

Definition sample_publications : list dict :=
  [ dict_of
      [("title", VStr "Storytelling with Data: From Insight to Impact");
       ("venue", VStr "Global Data Summit");
       ("year", VInt 2024);
       ("authors", VList [VStr "Muhamad Juwandi"]);
       ("slides_url", VStr "https://slides.com/");
       ("kind", VStr "talk")];
    dict_of
      [("title", VStr "Robust ML Pipelines with MLOps");
       ("venue", VStr "PyData");
       ("year", VInt 2023);
       ("authors", VList [VStr "Muhamad Juwandi"]);
       ("slides_url", VStr "https://slides.com/");
       ("kind", VStr "workshop")] ].

Definition sample_posts : list dict :=
  [ dict_of
      [("title", VStr "Designing Ethical AI Systems");
       ("slug", VStr "ethical-ai");
       ("excerpt", VStr "Principles and practical checklists for responsible ML.");
       ("body", VStr "Long-form body in Markdown or MDX.");
       ("topics", VList [VStr "ethics"; VStr "ai"]);
       ("published_at", VStr "2024-05-11")];
    dict_of
      [("title", VStr "Visualization Patterns that Clarify");
       ("slug", VStr "viz-patterns");
       ("excerpt", VStr "Choosing encodings that match mental models.");
       ("body", VStr "Post content...");
       ("topics", VList [VStr "viz"; VStr "design"]);
       ("published_at", VStr "2024-03-03")];
    dict_of
      [("title", VStr "From Notebook to Production");
       ("slug", VStr "notebook-to-prod");
       ("excerpt", VStr "A compact guide to MLOps for data scientists.");
       ("body", VStr "Post content...");
       ("topics", VList [VStr "mlops"; VStr "devops"]);
       ("published_at", VStr "2023-11-18")];
    dict_of
      [("title", VStr "R + Python for Analytics");
       ("slug", VStr "r-plus-python");
       ("excerpt", VStr "Leverage strengths of both ecosystems.");
       ("body", VStr "Post content...");
       ("topics", VList [VStr "r"; VStr "python"]);
       ("published_at", VStr "2023-07-07")] ].

(** [POST /seed] *)
Definition seed_content : py (option Database.t) dict :=
  db ← get_state;
  match db with
  | None => raise (HTTPException 500 "Database not configured")
  | Some _ =>
      n ← count_documents "project" ∅;
      (if bool_decide (n = 0%Z) then
         samples ← mapM (λ kwargs, lift (Project.validate kwargs)) sample_projects;
         for_each samples (λ p, create_document "project" (Project.dump p);; mret tt)
       else mret tt);;
      n ← count_documents "publication" ∅;
      (if bool_decide (n = 0%Z) then
         for_each sample_publications (λ pub, create_document "publication" pub;; mret tt)
       else mret tt);;
      n ← count_documents "blogpost" ∅;
      (if bool_decide (n = 0%Z) then
         for_each sample_posts (λ post, create_document "blogpost" post;; mret tt)
       else mret tt);;
      mret (dict_of [("status", VStr "ok")])
  end.

(** The query [list_projects] builds from its parameters. *)
Definition list_projects_query (domain : option string) (year : option Z) (q : option string)
    : dict :=
  let query : dict := ∅ in
  let query :=
    match domain with
    | Some s => if truthy_str domain then <["domain" := VStr s]> query else query
    | None => query
    end in
  let query :=
    match year with
    | Some y => if truthy_int year then <["year" := VInt y]> query else query
    | None => query
    end in
  let query :=
    match q with
    | Some pattern =>
        if truthy_str q then
          <["$or" := VList
             [VDict (dict_of [("title",
                VDict (dict_of [("$regex", VStr pattern); ("$options", VStr "i")]))]);
              VDict (dict_of [("summary",
                VDict (dict_of [("$regex", VStr pattern); ("$options", VStr "i")]))]);
              VDict (dict_of [("tags",
                VDict (dict_of [("$regex", VStr pattern); ("$options", VStr "i")]))])]]> query
        else query
    | None => query
    end in
  query.

(** The comprehension that drops the store's identifier from a document. *)
Definition strip_id (d : dict) : dict := filter (λ kv, kv.1 ≠ "_id") d.

(** [GET /projects] *)
Definition list_projects (domain : option string) (year : option Z) (q : option string)
    : py (option Database.t) (list Project.t) :=
  db ← get_state;
  match db with
  | None => mret []
  | Some _ =>
      docs ← get_documents "project" (list_projects_query domain year q);
      mapM (λ d, lift (Project.validate (strip_id d))) docs
  end.

(** [GET /publications] *)
Definition list_publications : py (option Database.t) (list Publication.t) :=
  db ← get_state;
  match db with
  | None => mret []
  | Some _ =>
      docs ← get_documents "publication" ∅;
      mapM (λ d, lift (Publication.validate (strip_id d))) docs
  end.

(** [GET /blog] *)
Definition list_blog : py (option Database.t) (list BlogPost.t) :=
  db ← get_state;
  match db with
  | None => mret []
  | Some _ =>
      docs ← get_documents "blogpost" ∅;
      mapM (λ d, lift (BlogPost.validate (strip_id d))) docs
  end.

Record ContactResponse := { status : string }.

(** [POST /contact] *)
Definition submit_contact (msg : ContactMessage.t) : py (option Database.t) ContactResponse :=
  db ← get_state;
  match db with
  | None => raise (HTTPException 500 "Database not configured")
  | Some _ =>
      create_document "contactmessage" (ContactMessage.dump msg);;
      mret {| status := "received" |}
  end.

End Store.

(** ** A search for patterns without metacharacters

    On a pattern that is plain text the store's search is containment,
    case-insensitive under the option [i]; the examples are run with it. *)

Definition lower (c : ascii) : ascii :=
  let n := N_of_ascii c in
  if ((65 <=? n) && (n <=? 90))%N then ascii_of_N (n + 32) else c.

Fixpoint lowercase (s : string) : string :=
  match s with
  | "" => ""
  | String c s' => String (lower c) (lowercase s')
  end.

Fixpoint contains (needle s : string) : bool :=
  String.prefix needle s
  || match s with
     | "" => false
     | String _ s' => contains needle s'
     end.

Definition literal_search (pattern options subject : string) : bool :=
  if contains "i" options then contains (lowercase pattern) (lowercase subject)
  else contains pattern subject.

(** ** Definitions used by the statements *)

(** A parameter is given when it is truthy. *)
Definition given_str (o : option string) : option string :=
  if truthy_str o then o else None.

Definition given_int (o : option Z) : option Z :=
  if truthy_int o then o else None.

(** The filter of the specification, read on a validated project: equal
    domain if one is asked for, equal year if one is asked for, and the
    pattern found, case-insensitively, in the title, the summary or one of
    the tags if a text is asked for. *)
Definition spec_project_filter (regex_search : string → string → string → bool)
    (domain : option string) (year : option Z) (q : option string) (p : Project.t) : bool :=
  from_option (λ s, bool_decide (Project.domain p = s)) true domain
  && from_option (λ y, bool_decide (Project.year p = y)) true year
  && from_option (λ pattern,
       regex_search pattern "i" (Project.title p)
       || regex_search pattern "i" (Project.summary p)
       || existsb (regex_search pattern "i") (Project.tags p)) true q.

(** The domain values as the specification lists them. *)
Definition spec_domains : list string :=
  ["ML"; "Analytics"; "Visualization"; "NLP"; "CV"; "TimeSeries"; "MLOps"; "Other"].

(** Several inserts into one collection, in order. *)
Definition insert_all (coll : string) (items : list dict) (d : Database.t) : Database.t :=
  foldl (λ d' doc, (Database.insert_one coll doc d').2) d items.

(** What seeding does to one collection: the samples are inserted if and
    only if the collection is empty. *)
Definition seeded (coll : string) (items : list dict) (d : Database.t) : Database.t :=
  if bool_decide (Database.docs coll d = []) then insert_all coll items d else d.

(** The sample projects as models. *)
Definition sample_models : list Project.t :=
  omap (λ kwargs, match Project.validate kwargs with
                  | Ok p => Some p
                  | Raise _ => None
                  end) sample_projects.

(** The store after [seed_content] on a reachable store. *)
Definition seeded_store (d : Database.t) : Database.t :=
  seeded "blogpost" sample_posts
    (seeded "publication" sample_publications
       (seeded "project" (Project.dump <$> sample_models) d)).

(** A configured, reachable store that holds nothing yet. *)
Definition empty_store : Database.t :=
  {| Database.name := "portfolio";
     Database.unreachable := None;
     Database.collections := ∅;
     Database.next_id := 0 |}.

(** The first sample project and its model. *)
Definition churn_sample : dict := sample_projects !!! 0%nat.

(** The second sample project, the one in the time-series domain. *)
Definition forecasting_sample : dict := sample_projects !!! 1%nat.

Definition model_of (kwargs : dict) : Project.t :=
  match Project.validate kwargs with
  | Ok p => p
  | Raise _ =>
      Project.Build "" "" "" "" [] 0 "" "" "" "" "" "" None None [] None
  end.

Definition churn_model : Project.t := model_of churn_sample.

Definition forecasting_model : Project.t := model_of forecasting_sample.

(** A store that holds one project and no other content. *)
Definition one_project_store : Database.t :=
  (Database.insert_one "project" (Project.dump churn_model) empty_store).2.

(** The first sample project with its year set to [0]. *)
Definition year_zero_sample : dict := <["year" := VInt 0]> churn_sample.

Definition sample_message : ContactMessage.t :=
  {| ContactMessage.name := "Ada";
     ContactMessage.email := "ada@example.org";
     ContactMessage.message := "Hello";
     ContactMessage.source := None |}.

(** The answer of [test_database] when the handle is unset. *)
Definition unset_response : dict :=
  dict_of [("backend", VStr "✅ Running");
           ("database", VStr "⚠️ Available but not initialized");
           ("database_url", VNone);
           ("database_name", VNone);
           ("connection_status", VStr "Not Connected");
           ("collections", VList [])].

(** The first sample publication. *)
Definition storytelling_sample : dict := sample_publications !!! 0%nat.

(** A validation reports the error [err]. *)
Definition has_error {A} (c : checked A) (err : string * string) : Prop :=
  ∃ errs, c = Invalid errs ∧ err ∈ errs.

Definition set_domain (s : string) (p : Project.t) : Project.t :=
  Project.Build (Project.title p) (Project.slug p) (Project.summary p) s
    (Project.stack p) (Project.year p) (Project.problem p) (Project.approach p)
    (Project.dataset p) (Project.model p) (Project.results p) (Project.impact p)
    (Project.github_url p) (Project.demo_url p) (Project.tags p) (Project.plotly_fig p).

Definition set_stack (l : list string) (p : Project.t) : Project.t :=
  Project.Build (Project.title p) (Project.slug p) (Project.summary p) (Project.domain p)
    l (Project.year p) (Project.problem p) (Project.approach p)
    (Project.dataset p) (Project.model p) (Project.results p) (Project.impact p)
    (Project.github_url p) (Project.demo_url p) (Project.tags p) (Project.plotly_fig p).

Definition set_tags (l : list string) (p : Project.t) : Project.t :=
  Project.Build (Project.title p) (Project.slug p) (Project.summary p) (Project.domain p)
    (Project.stack p) (Project.year p) (Project.problem p) (Project.approach p)
    (Project.dataset p) (Project.model p) (Project.results p) (Project.impact p)
    (Project.github_url p) (Project.demo_url p) l (Project.plotly_fig p).

Definition set_topics (l : list string) (b : BlogPost.t) : BlogPost.t :=
  BlogPost.Build (BlogPost.title b) (BlogPost.slug b) (BlogPost.excerpt b) (BlogPost.body b)
    l (BlogPost.published_at b).

(** The fields of [Project], and those declared without a default. *)
Definition project_fields : list string :=
  ["title"; "slug"; "summary"; "domain"; "stack"; "year"; "problem"; "approach";
   "dataset"; "model"; "results"; "impact"; "github_url"; "demo_url"; "tags";
   "plotly_fig"].

Definition project_required : list string :=
  ["title"; "slug"; "summary"; "domain"; "year"; "problem"; "approach"; "dataset";
   "model"; "results"; "impact"].

Definition set_year (z : Z) (p : Project.t) : Project.t :=
  Project.Build (Project.title p) (Project.slug p) (Project.summary p) (Project.domain p)
    (Project.stack p) z (Project.problem p) (Project.approach p)
    (Project.dataset p) (Project.model p) (Project.results p) (Project.impact p)
    (Project.github_url p) (Project.demo_url p) (Project.tags p) (Project.plotly_fig p).

Definition set_github_url (o : option string) (p : Project.t) : Project.t :=
  Project.Build (Project.title p) (Project.slug p) (Project.summary p) (Project.domain p)
    (Project.stack p) (Project.year p) (Project.problem p) (Project.approach p)
    (Project.dataset p) (Project.model p) (Project.results p) (Project.impact p)
    o (Project.demo_url p) (Project.tags p) (Project.plotly_fig p).

Definition set_demo_url (o : option string) (p : Project.t) : Project.t :=
  Project.Build (Project.title p) (Project.slug p) (Project.summary p) (Project.domain p)
    (Project.stack p) (Project.year p) (Project.problem p) (Project.approach p)
    (Project.dataset p) (Project.model p) (Project.results p) (Project.impact p)
    (Project.github_url p) o (Project.tags p) (Project.plotly_fig p).

Definition set_plotly_fig (o : option dict) (p : Project.t) : Project.t :=
  Project.Build (Project.title p) (Project.slug p) (Project.summary p) (Project.domain p)
    (Project.stack p) (Project.year p) (Project.problem p) (Project.approach p)
    (Project.dataset p) (Project.model p) (Project.results p) (Project.impact p)
    (Project.github_url p) (Project.demo_url p) (Project.tags p) o.

Definition set_kind (s : string) (pub : Publication.t) : Publication.t :=
  Publication.Build (Publication.title pub) (Publication.venue pub) (Publication.year pub)
    (Publication.authors pub) (Publication.link pub) (Publication.slides_url pub) s.

Definition set_published_at (s : string) (b : BlogPost.t) : BlogPost.t :=
  BlogPost.Build (BlogPost.title b) (BlogPost.slug b) (BlogPost.excerpt b) (BlogPost.body b)
    (BlogPost.topics b) s.

Definition set_age (o : option Z) (u : User.t) : User.t :=
  User.Build (User.name u) (User.email u) (User.address u) o (User.is_active u).

Definition set_is_active (b : bool) (u : User.t) : User.t :=
  User.Build (User.name u) (User.email u) (User.address u) (User.age u) b.

(** A result that is not an exception. *)
Definition is_ok {A} (r : result A) : Prop := ∃ a, r = Ok a.

(** The keys of the answer of [test_database]. *)
Definition response_keys : gset string :=
  {["backend"; "database"; "database_url"; "database_name"; "connection_status";
    "collections"]}.

(** Sample payloads and stores for the examples. *)
Definition sample_user : dict :=
  dict_of [("name", VStr "Ada"); ("email", VStr "ada@example.org");
           ("address", VStr "12 St James Square")].

Definition sample_user_model : User.t :=
  User.Build "Ada" "ada@example.org" "12 St James Square" None true.

Definition sample_message_payload : dict :=
  dict_of [("name", VStr "Ada"); ("email", VStr "not an address");
           ("message", VStr "Hello")].

Definition unreachable_store : Database.t :=
  {| Database.name := "portfolio";
     Database.unreachable := Some "connection refused";
     Database.collections := ∅;
     Database.next_id := 0 |}.

Definition ethics_sample : dict := sample_posts !!! 0%nat.

(** ** Basic facts *)

Lemma length_not_nil {A} (l : list A) (n : nat) : length l = S n → l ≠ [].
Proof. by intros Hlen ->. Qed.

Lemma mapM_lift {S A B} (f : A → result B) (l : list A) (s : S) :
  mapM (λ x, lift (f x)) l s = (mapM f l, s).
Proof.
  induction l as [|x l IH]; [done|].
  cbn. unfold mbind at 1, py_bind, lift at 1.
  destruct (f x) as [b|e]; [|done].
  change ((mapM (λ x0, lift (f x0)) l ≫= λ k, mret (b :: k)) s)
    with (match mapM (λ x0, lift (f x0)) l s with
          | (Ok a, s') => (Ok (b :: a), s')
          | (Raise e, s') => (Raise e, s')
          end).
  rewrite IH. by destruct (mapM f l).
Qed.

Lemma mapM_result_ok {A B} (f : A → result B) (l : list A) (k : list B) :
  mapM f l = Ok k → Forall2 (λ x y, f x = Ok y) l k.
Proof.
  revert k. induction l as [|x l IH]; intros k; cbn.
  - intros [= <-]. constructor.
  - destruct (f x) as [y|e] eqn:Hx; cbn; [|discriminate].
    destruct (mapM f l) as [k'|e]; cbn; [|discriminate].
    intros [= <-]. constructor; [done|by apply IH].
Qed.

Lemma mapM_result_Forall2 {A B} (f : A → result B) (l : list A) (k : list B) :
  Forall2 (λ x y, f x = Ok y) l k → mapM f l = Ok k.
Proof.
  induction 1 as [|x y l k Hxy _ IH]; [done|].
  cbn. rewrite Hxy. cbn. by rewrite IH.
Qed.

Lemma ap_valid {A B} (f : checked (A → B)) (x : checked A) (b : B) :
  f <*> x = Valid b → ∃ g a, f = Valid g ∧ x = Valid a ∧ b = g a.
Proof.
  destruct f as [g|?], x as [a|?]; cbn; intros H; try discriminate.
  injection H as <-. by exists g, a.
Qed.

Lemma field_valid {A} (kwargs : dict) (k : string) (chk : check A) (a : A) :
  field kwargs k chk = Valid a → chk (kwargs !! k) = inr a.
Proof. unfold field. destruct (chk _); congruence. Qed.

Lemma field_insert_ne {A} (kwargs : dict) (k k' : string) (v : value) (chk : check A) :
  k ≠ k' → field (<[k := v]> kwargs) k' chk = field kwargs k' chk.
Proof. intros ?. unfold field. by rewrite lookup_insert_ne. Qed.

Lemma field_delete_ne {A} (kwargs : dict) (k k' : string) (chk : check A) :
  k ≠ k' → field (delete k kwargs) k' chk = field kwargs k' chk.
Proof. intros ?. unfold field. by rewrite lookup_delete_ne. Qed.

Lemma all_items_str (l : list value) (ss : list string) :
  all_items str_type l = inr ss → l = VStr <$> ss.
Proof.
  revert ss. induction l as [|v l IH]; intros ss; cbn.
  - by intros [= <-].
  - destruct v; cbn; destruct (all_items str_type l) as [|ss']; try discriminate.
    intros [= <-]. cbn. by rewrite (IH ss' eq_refl).
Qed.

Lemma has_error_ap_l {A B} (f : checked (A → B)) (x : checked A) err :
  has_error f err → has_error (f <*> x) err.
Proof.
  intros (errs & -> & Hin). destruct x as [a|errs']; cbn.
  - by exists errs.
  - exists (errs ++ errs'). split; [done|]. apply elem_of_app. by left.
Qed.

Lemma has_error_ap_r {A B} (f : checked (A → B)) (x : checked A) err :
  has_error x err → has_error (f <*> x) err.
Proof.
  intros (errs & -> & Hin). destruct f as [g|errs']; cbn.
  - by exists errs.
  - exists (errs' ++ errs). split; [done|]. apply elem_of_app. by right.
Qed.

Lemma has_error_raise {A} (c : checked A) err :
  has_error c err → ∃ errs, to_result c = Raise (ValidationError errs) ∧ err ∈ errs.
Proof. intros (errs & -> & Hin). by exists errs. Qed.

Lemma to_result_ok {A} (c : checked A) (a : A) : to_result c = Ok a → c = Valid a.
Proof. destruct c; cbn; congruence. Qed.

(** Split a successful chain of field checks into its fields. *)
Ltac split_fields H :=
  apply to_result_ok in H;
  repeat (let Hf := fresh "Hfield" in
          apply ap_valid in H as (? & ? & H & Hf & ->));
  injection H as <-.

(** What a valid project says about the document it was built from. *)
Lemma project_valid_fields (kwargs : dict) (p : Project.t) :
  Project.validate kwargs = Ok p →
  kwargs !! "title" = Some (VStr (Project.title p))
  ∧ kwargs !! "summary" = Some (VStr (Project.summary p))
  ∧ kwargs !! "domain" = Some (VStr (Project.domain p))
  ∧ Project.domain p ∈ Project.domains
  ∧ kwargs !! "year" = Some (VInt (Project.year p))
  ∧ (kwargs !! "stack" = None → Project.stack p = [])
  ∧ (kwargs !! "tags" = None ∧ Project.tags p = []
     ∨ kwargs !! "tags" = Some (VList (VStr <$> Project.tags p))).
Proof.
  intros H. unfold Project.validate, Project.check_fields in H. split_fields H.
  repeat match goal with
         | Hf : field _ _ _ = Valid _ |- _ => apply field_valid in Hf
         end.
  cbn [Project.title Project.summary Project.domain Project.year Project.stack Project.tags].
  repeat split.
  - destruct (kwargs !! "title") as [[]|]; cbn in *; congruence.
  - destruct (kwargs !! "summary") as [[]|]; cbn in *; congruence.
  - destruct (kwargs !! "domain") as [[]|]; cbn in *; try congruence.
    case_bool_decide; congruence.
  - destruct (kwargs !! "domain") as [[]|]; cbn in *; try congruence.
    case_bool_decide; congruence.
  - destruct (kwargs !! "year") as [[]|]; cbn in *; congruence.
  - intros Hnone. rewrite Hnone in *. cbn in *. congruence.
  - destruct (kwargs !! "tags") as [[]|]; cbn in *; try congruence.
    + right. f_equal. f_equal. by apply all_items_str.
    + left. split; congruence.
Qed.

Lemma field_insert_eq {A} (kwargs : dict) (k : string) (v : value) (chk : check A) :
  field (<[k := v]> kwargs) k chk
  = match chk (Some v) with
    | inr a => Valid a
    | inl e => Invalid [(k, e)]
    end.
Proof. unfold field. by rewrite lookup_insert_eq. Qed.

Lemma field_delete_eq {A} (kwargs : dict) (k : string) (chk : check A) :
  field (delete k kwargs) k chk
  = match chk None with
    | inr a => Valid a
    | inl e => Invalid [(k, e)]
    end.
Proof. unfold field. by rewrite lookup_delete_eq. Qed.

(** Replace the checks of the untouched fields by their known values. *)
Ltac reuse_fields :=
  repeat match goal with
         | Hf : field _ _ _ = Valid _ |- _ => rewrite ?Hf; clear Hf
         end.

Lemma project_domain_replaced (kwargs : dict) (p : Project.t) (s : string) :
  Project.validate kwargs = Ok p → s ∈ Project.domains →
  Project.validate (<["domain" := VStr s]> kwargs) = Ok (set_domain s p).
Proof.
  intros H Hs. unfold Project.validate, Project.check_fields in *. split_fields H.
  rewrite field_insert_eq, !field_insert_ne by done.
  cbn [required literal]. rewrite (bool_decide_true _ Hs).
  by reuse_fields.
Qed.

Lemma project_domain_rejected (kwargs : dict) (v : value) :
  kwargs !! "domain" = Some v → (∀ s, s ∈ Project.domains → v ≠ VStr s) →
  has_error (Project.check_fields kwargs) ("domain", "literal_error").
Proof.
  intros Hv Hout. unfold Project.check_fields.
  do 12 apply has_error_ap_l. apply has_error_ap_r.
  exists [("domain", "literal_error")]. split; [|apply list_elem_of_here].
  unfold field. rewrite Hv. cbn.
  destruct v as [| | | |s| | |]; try done.
  unfold literal. case_bool_decide as Hs; [|done]. by destruct (Hout s Hs).
Qed.

Lemma project_stack_omitted (kwargs : dict) (p : Project.t) :
  Project.validate kwargs = Ok p →
  Project.validate (delete "stack" kwargs) = Ok (set_stack [] p).
Proof.
  intros H. unfold Project.validate, Project.check_fields in *. split_fields H.
  rewrite field_delete_eq, !field_delete_ne by done.
  cbn [with_default]. by reuse_fields.
Qed.

Lemma project_tags_omitted (kwargs : dict) (p : Project.t) :
  Project.validate kwargs = Ok p →
  Project.validate (delete "tags" kwargs) = Ok (set_tags [] p).
Proof.
  intros H. unfold Project.validate, Project.check_fields in *. split_fields H.
  rewrite field_delete_eq, !field_delete_ne by done.
  cbn [with_default]. by reuse_fields.
Qed.

Lemma blogpost_topics_omitted (kwargs : dict) (b : BlogPost.t) :
  BlogPost.validate kwargs = Ok b →
  BlogPost.validate (delete "topics" kwargs) = Ok (set_topics [] b).
Proof.
  intros H. unfold BlogPost.validate, BlogPost.check_fields in *. split_fields H.
  rewrite field_delete_eq, !field_delete_ne by done.
  cbn [with_default]. by reuse_fields.
Qed.

Lemma publication_authors_required (kwargs : dict) :
  kwargs !! "authors" = None →
  has_error (Publication.check_fields kwargs) ("authors", "missing").
Proof.
  intros Hk. unfold Publication.check_fields.
  do 3 apply has_error_ap_l. apply has_error_ap_r.
  exists [("authors", "missing")]. split; [|apply list_elem_of_here].
  unfold field. by rewrite Hk.
Qed.

Section Properties.

Variable regex_search : string → string → string → bool.

(** *** Queries *)

Lemma matches_empty (d : dict) : matches regex_search ∅ d = true.
Proof. unfold matches. by rewrite map_fold_empty. Qed.

Lemma matches_insert (query d : dict) (k : string) (v : value) :
  query !! k = None → matches regex_search (<[k := v]> query) d = clause regex_search d k v && matches regex_search query d.
Proof.
  intros Hk. unfold matches.
  rewrite map_fold_insert_L; [done| |done].
  intros j1 j2 z1 z2 y _ _ _.
  by destruct (clause regex_search d j1 z1), (clause regex_search d j2 z2).
Qed.

Lemma matches_singleton (d : dict) (k : string) (v : value) :
  matches regex_search (dict_of [(k, v)]) d = clause regex_search d k v.
Proof.
  unfold dict_of. cbn [list_to_map foldr uncurry fst snd curry].
  rewrite matches_insert by apply lookup_empty.
  rewrite matches_empty. apply andb_true_r.
Qed.

Lemma filter_matches_empty (l : list dict) : List.filter (matches regex_search ∅) l = l.
Proof.
  induction l as [|d l IH]; [done|].
  cbn. by rewrite matches_empty, IH.
Qed.

Lemma clause_plain (d : dict) (k : string) (v : value) :
  k ≠ "$or" → (∀ ops, v ≠ VDict ops) → clause regex_search d k v = field_eq d k v.
Proof.
  intros Hk Hv. destruct v; cbn; rewrite bool_decide_false by done; try done.
  by destruct (Hv d0).
Qed.

Lemma clause_regex (d : dict) (k pattern options : string) :
  k ≠ "$or" →
  clause regex_search d k (VDict (dict_of [("$regex", VStr pattern); ("$options", VStr options)]))
  = field_regex regex_search d k pattern options.
Proof. intros Hk. cbn. by rewrite bool_decide_false by done. Qed.

Lemma clause_or (d : dict) (qs : list dict) :
  clause regex_search d "$or" (VList (VDict <$> qs))
  = existsb (λ query, matches regex_search query d) qs.
Proof.
  change (clause regex_search d "$or" (VList (VDict <$> qs)))
    with (existsb (λ q, match q with
                        | VDict m => matches regex_search m d
                        | _ => false
                        end) (VDict <$> qs)).
  induction qs as [|query qs IH]; cbn; [done|by rewrite IH].
Qed.

(** The query of [list_projects] holds of a document exactly when each of
    the clauses of the given parameters does. *)
Lemma matches_list_projects_query (domain : option string) (year : option Z)
    (q : option string) (d : dict) :
  matches regex_search (list_projects_query domain year q) d
  = from_option (λ s, field_eq d "domain" (VStr s)) true (given_str domain)
    && from_option (λ y, field_eq d "year" (VInt y)) true (given_int year)
    && from_option (λ pattern,
         field_regex regex_search d "title" pattern "i"
         || field_regex regex_search d "summary" pattern "i"
         || field_regex regex_search d "tags" pattern "i") true (given_str q).
Proof.
  unfold list_projects_query, given_str, given_int.
  destruct domain as [s|], year as [y|], q as [pattern|];
    repeat match goal with
           | |- context [truthy_str ?o] => destruct (truthy_str o)
           | |- context [truthy_int ?o] => destruct (truthy_int o)
           end;
    cbn [from_option];
    change (VList [VDict (dict_of [("title", ?a)]); VDict (dict_of [("summary", ?b)]);
                   VDict (dict_of [("tags", ?c)])])
      with (VList (VDict <$> [dict_of [("title", a)]; dict_of [("summary", b)];
                              dict_of [("tags", c)]]));
    rewrite ?matches_insert by (by rewrite ?lookup_insert_ne by done);
    rewrite ?matches_empty, ?clause_or; cbn [existsb];
    rewrite ?matches_singleton, ?clause_regex, ?clause_plain by done;
    repeat match goal with
           | |- context [field_eq ?a ?b ?c] => destruct (field_eq a b c)
           | |- context [field_regex ?r ?a ?b ?c ?o] => destruct (field_regex r a b c o)
           end; done.
Qed.

(** *** Inserts *)

Lemma insert_one_unreachable (coll : string) (doc : dict) (d : Database.t) :
  Database.unreachable (Database.insert_one coll doc d).2 = Database.unreachable d.
Proof. done. Qed.

Lemma docs_insert_one (coll : string) (doc : dict) (d : Database.t) :
  Database.docs coll (Database.insert_one coll doc d).2
  = Database.docs coll d ++ [<["_id" := VObjectId (Database.next_id d)]> doc].
Proof. unfold Database.docs. cbn. by rewrite lookup_total_insert_eq. Qed.

Lemma docs_insert_one_ne (coll coll' : string) (doc : dict) (d : Database.t) :
  coll ≠ coll' →
  Database.docs coll' (Database.insert_one coll doc d).2 = Database.docs coll' d.
Proof. intros ?. unfold Database.docs. cbn. by rewrite lookup_total_insert_ne. Qed.

Lemma insert_all_cons (coll : string) (doc : dict) (items : list dict) (d : Database.t) :
  insert_all coll (doc :: items) d
  = insert_all coll items (Database.insert_one coll doc d).2.
Proof. done. Qed.

Lemma insert_all_unreachable (coll : string) (items : list dict) (d : Database.t) :
  Database.unreachable (insert_all coll items d) = Database.unreachable d.
Proof.
  revert d. induction items as [|doc items IH]; intros d; [done|].
  by rewrite insert_all_cons, IH.
Qed.

Lemma docs_insert_all_ne (coll coll' : string) (items : list dict) (d : Database.t) :
  coll ≠ coll' → Database.docs coll' (insert_all coll items d) = Database.docs coll' d.
Proof.
  intros Hne. revert d. induction items as [|doc items IH]; intros d; [done|].
  by rewrite insert_all_cons, IH, docs_insert_one_ne.
Qed.

Lemma length_docs_insert_all (coll : string) (items : list dict) (d : Database.t) :
  length (Database.docs coll (insert_all coll items d))
  = (length (Database.docs coll d) + length items)%nat.
Proof.
  revert d. induction items as [|doc items IH]; intros d; [cbn; lia|].
  rewrite insert_all_cons, IH, docs_insert_one, length_app. cbn. lia.
Qed.

Lemma for_each_create {A} (coll : string) (f : A → dict) (items : list A)
    (d : Database.t) :
  Database.unreachable d = None →
  for_each items (λ x, create_document coll (f x);; mret tt) (Some d)
  = (Ok tt, Some (insert_all coll (f <$> items) d)).
Proof.
  revert d. induction items as [|x items IH]; intros d Hd; [done|].
  cbn [for_each fmap list_fmap]. rewrite insert_all_cons.
  unfold mbind at 1, py_bind. unfold mbind at 1, py_bind.
  unfold create_document at 1. rewrite Hd.
  change (for_each items (λ x, create_document coll (f x);; mret tt)
            (Some (Database.insert_one coll (f x) d).2)
          = (Ok tt, Some (insert_all coll (f <$> items)
                            (Database.insert_one coll (f x) d).2))).
  by apply IH.
Qed.

(** *** Seeding *)

Lemma seeded_unreachable (coll : string) (items : list dict) (d : Database.t) :
  Database.unreachable (seeded coll items d) = Database.unreachable d.
Proof. unfold seeded. case_bool_decide; [apply insert_all_unreachable|done]. Qed.

Lemma docs_seeded_ne (coll coll' : string) (items : list dict) (d : Database.t) :
  coll ≠ coll' → Database.docs coll' (seeded coll items d) = Database.docs coll' d.
Proof. intros ?. unfold seeded. case_bool_decide; [by apply docs_insert_all_ne|done]. Qed.

(** A collection that holds a document is left as it is. *)
Lemma docs_seeded_nonempty (coll coll' : string) (items : list dict) (d : Database.t) :
  Database.docs coll' d ≠ [] →
  Database.docs coll' (seeded coll items d) = Database.docs coll' d.
Proof.
  intros Hne. destruct (decide (coll = coll')) as [->|?]; [|by apply docs_seeded_ne].
  unfold seeded. by rewrite bool_decide_false.
Qed.

Lemma seeded_nonempty (coll : string) (items : list dict) (d : Database.t) :
  items ≠ [] → Database.docs coll (seeded coll items d) ≠ [].
Proof.
  intros Hitems. unfold seeded. case_bool_decide as Hd; [|done].
  intros Hnil. apply (f_equal length) in Hnil.
  rewrite length_docs_insert_all in Hnil. destruct items; [done|]. cbn in Hnil. lia.
Qed.

Lemma seeded_id (coll : string) (items : list dict) (d : Database.t) :
  Database.docs coll d ≠ [] → seeded coll items d = d.
Proof. intros ?. unfold seeded. by rewrite bool_decide_false. Qed.

Lemma count_documents_all (coll : string) (d : Database.t) :
  Database.unreachable d = None →
  count_documents regex_search coll ∅ (Some d)
  = (Ok (Z.of_nat (length (Database.docs coll d))), Some d).
Proof. intros Hd. unfold count_documents. by rewrite Hd, filter_matches_empty. Qed.

Lemma sample_projects_valid : mapM Project.validate sample_projects = Ok sample_models.
Proof. by vm_compute. Qed.

(** One guarded block of [seed_content]. *)
Lemma seed_block (coll : string) (items : list dict) (d : Database.t)
    (n : Z) (block : py (option Database.t) unit) :
  n = Z.of_nat (length (Database.docs coll d)) →
  block (Some d) = (Ok tt, Some (insert_all coll items d)) →
  (if bool_decide (n = 0%Z) then block else mret tt) (Some d)
  = (Ok tt, Some (seeded coll items d)).
Proof.
  intros -> Hblock. unfold seeded.
  destruct (Database.docs coll d) as [|doc l]; cbn [length].
  - by rewrite !bool_decide_true.
  - by rewrite !bool_decide_false by (done || lia).
Qed.

Lemma bind_ok {S A B} (m : py S A) (f : A → py S B) (s s' : S) (a : A) :
  m s = (Ok a, s') → (m ≫= f) s = f a s'.
Proof. intros H. unfold mbind, py_bind. by rewrite H. Qed.

Lemma bind_raise {S A B} (m : py S A) (f : A → py S B) (s s' : S) (e : exn) :
  m s = (Raise e, s') → (m ≫= f) s = (Raise e, s').
Proof. intros H. unfold mbind, py_bind. by rewrite H. Qed.

Lemma seed_content_reachable (d : Database.t) :
  Database.unreachable d = None →
  seed_content regex_search (Some d)
  = (Ok (dict_of [("status", VStr "ok")]), Some (seeded_store d)).
Proof.
  intros Hd. unfold seed_content, seeded_store.
  rewrite (bind_ok get_state _ (Some d) (Some d) (Some d)) by done.
  erewrite bind_ok by (by apply count_documents_all).
  erewrite bind_ok; cycle 1.
  { apply seed_block; [done|].
    erewrite bind_ok by (by rewrite mapM_lift, sample_projects_valid).
    by apply for_each_create. }
  erewrite bind_ok by (by apply count_documents_all; rewrite seeded_unreachable).
  erewrite bind_ok; cycle 1.
  { apply seed_block; [done|].
    apply (for_each_create _ id). by rewrite seeded_unreachable. }
  erewrite bind_ok by (by apply count_documents_all; rewrite !seeded_unreachable).
  erewrite bind_ok; cycle 1.
  { apply seed_block; [done|].
    apply (for_each_create _ id). by rewrite !seeded_unreachable. }
  by rewrite !list_fmap_id.
Qed.

Lemma seed_content_unreachable (d : Database.t) (msg : string) :
  Database.unreachable d = Some msg →
  seed_content regex_search (Some d) = (Raise (Exception msg), Some d).
Proof.
  intros Hd. unfold seed_content.
  rewrite (bind_ok get_state _ (Some d) (Some d) (Some d)) by done.
  apply bind_raise. unfold count_documents. by rewrite Hd.
Qed.

Lemma seeded_store_unreachable (d : Database.t) :
  Database.unreachable (seeded_store d) = Database.unreachable d.
Proof. unfold seeded_store. by rewrite !seeded_unreachable. Qed.

(** A store that was seeded is a fixed point of seeding. *)
Lemma seeded_store_idem (d : Database.t) : seeded_store (seeded_store d) = seeded_store d.
Proof.
  unfold seeded_store at 1.
  assert (Database.docs "project" (seeded_store d) ≠ []) as Hpr.
  { unfold seeded_store. rewrite !docs_seeded_ne by done. by apply seeded_nonempty. }
  assert (Database.docs "publication" (seeded_store d) ≠ []) as Hpu.
  { unfold seeded_store. rewrite docs_seeded_ne by done. by apply seeded_nonempty. }
  assert (Database.docs "blogpost" (seeded_store d) ≠ []) as Hbl.
  { unfold seeded_store. by apply seeded_nonempty. }
  rewrite (seeded_id "project") by done.
  rewrite (seeded_id "publication") by done.
  by rewrite (seeded_id "blogpost").
Qed.

Lemma docs_seeded_store_nonempty (coll : string) (d : Database.t) :
  Database.docs coll d ≠ [] → Database.docs coll (seeded_store d) = Database.docs coll d.
Proof.
  intros Hne. unfold seeded_store.
  set (d1 := seeded "project" _ d). set (d2 := seeded "publication" _ d1).
  assert (Database.docs coll d1 = Database.docs coll d) as H1
    by by apply docs_seeded_nonempty.
  assert (Database.docs coll d2 = Database.docs coll d) as H2.
  { rewrite <- H1. apply docs_seeded_nonempty. by rewrite H1. }
  rewrite <- H2. apply docs_seeded_nonempty. by rewrite H2.
Qed.

(** *** Fields of a document *)

Lemma field_eq_str (d : dict) (k s s' : string) :
  d !! k = Some (VStr s) → field_eq d k (VStr s') = bool_decide (s = s').
Proof.
  intros Hk. unfold field_eq. rewrite Hk, orb_false_r.
  apply bool_decide_ext. split; congruence.
Qed.

Lemma field_eq_int (d : dict) (k : string) (z z' : Z) :
  d !! k = Some (VInt z) → field_eq d k (VInt z') = bool_decide (z = z').
Proof.
  intros Hk. unfold field_eq. rewrite Hk, orb_false_r.
  apply bool_decide_ext. split; congruence.
Qed.

Lemma field_regex_str (d : dict) (k s pattern options : string) :
  d !! k = Some (VStr s) →
  field_regex regex_search d k pattern options = regex_search pattern options s.
Proof. intros Hk. unfold field_regex. by rewrite Hk. Qed.

Lemma field_regex_strs (d : dict) (k pattern options : string) (l : list string) :
  d !! k = None ∧ l = [] ∨ d !! k = Some (VList (VStr <$> l)) →
  field_regex regex_search d k pattern options = existsb (regex_search pattern options) l.
Proof.
  unfold field_regex. intros [[-> ->]| ->]; [done|].
  induction l as [|s l IH]; cbn; [done|by rewrite IH].
Qed.

(** *** The handlers *)


(** C10.  A falsy parameter of [GET /projects] is treated as absent: the
    empty domain, the year [0] and the empty text add no clause to the
    query.  The query therefore has a year clause only for a year other than
    [0], and a query with a year clause never holds of a document whose year
    is [0]. *)
Theorem falsy_parameters_absent (domain : option string) (year : option Z) (q : option string) :
  list_projects_query (Some "") year q = list_projects_query None year q
  ∧ list_projects_query domain (Some 0%Z) q = list_projects_query domain None q
  ∧ list_projects_query domain year (Some "") = list_projects_query domain year None
  ∧ list_projects_query domain (Some 0%Z) q !! "year" = None
  ∧ (∀ doc, doc !! "year" = Some (VInt 0) →
       is_Some (list_projects_query domain year q !! "year") →
       matches regex_search (list_projects_query domain year q) doc = false).
Proof.
  repeat split; try done.
  - unfold list_projects_query.
    destruct domain as [s|], q as [pattern|];
      repeat match goal with
             | |- context [truthy_str ?o] => destruct (truthy_str o)
             end;
      by rewrite ?lookup_insert_ne by done.
  - intros doc Hdoc Hclause. rewrite matches_list_projects_query.
    assert (∃ y, given_int year = Some y ∧ y ≠ 0%Z) as (y & -> & Hy).
    { unfold list_projects_query, given_int in *.
      destruct year as [y|].
      - destruct (truthy_int (Some y)) eqn:Htruthy.
        + exists y. split; [done|]. cbn in Htruthy. by case_bool_decide.
        + destruct domain as [s|], q as [pattern|];
            repeat match goal with
                   | H : context [truthy_str ?o] |- _ => destruct (truthy_str o)
                   end;
            rewrite ?lookup_insert_ne in Hclause by done;
            by destruct Hclause.
      - destruct domain as [s|], q as [pattern|];
          repeat match goal with
                 | H : context [truthy_str ?o] |- _ => destruct (truthy_str o)
                 end;
          rewrite ?lookup_insert_ne in Hclause by done;
          by destruct Hclause. }
    cbn [from_option]. rewrite (field_eq_int _ _ _ _ Hdoc).
    rewrite bool_decide_false by congruence.
    by rewrite andb_false_r.
Qed.

(** C3.  After a call of [POST /seed] a second call leaves the store as it
    is: on every state of the handle the state after two calls is the state
    after one.  A collection that holds a document when [seed_content] is
    called holds the same documents afterwards, so nothing is inserted into
    it; on a reachable store both calls answer [ok]. *)
Theorem seed_content_twice (db : option Database.t) :
  (seed_content regex_search (seed_content regex_search db).2).2
  = (seed_content regex_search db).2
  ∧ (∀ d coll, db = Some d → Database.docs coll d ≠ [] →
       ∃ d', (seed_content regex_search db).2 = Some d'
             ∧ Database.docs coll d' = Database.docs coll d)
  ∧ (∀ d, db = Some d → Database.unreachable d = None →
       (seed_content regex_search db).1 = Ok (dict_of [("status", VStr "ok")])
       ∧ (seed_content regex_search (seed_content regex_search db).2).1
         = Ok (dict_of [("status", VStr "ok")])).
Proof.
  destruct db as [d|].
  - destruct (Database.unreachable d) as [msg|] eqn:Hd.
    + rewrite !(seed_content_unreachable d msg Hd); cbn [fst snd].
      rewrite !(seed_content_unreachable d msg Hd); cbn [fst snd].
      split; [done|]. split; [|by intros ? [= <-]; congruence].
      intros d0 coll [= <-] _. by exists d.
    + rewrite !(seed_content_reachable d Hd); cbn [fst snd].
      rewrite !seed_content_reachable by by rewrite seeded_store_unreachable.
      cbn [fst snd]. split; [by rewrite seeded_store_idem|]. split; [|done].
      intros d0 coll [= <-] Hne. exists (seeded_store d).
      split; [done|]. by apply docs_seeded_store_nonempty.
  - split; [done|]. by split.
Qed.

(** C4.  On a configured and reachable store [POST /contact] answers
    [received] for every contact message and appends exactly one document,
    the message under a fresh identifier, to the collection
    [contactmessage]; the other collections keep their documents. *)
Theorem submit_contact_received (msg : ContactMessage.t) (d : Database.t) :
  Database.unreachable d = None →
  ∃ d', submit_contact msg (Some d) = (Ok {| status := "received" |}, Some d')
        ∧ Database.docs "contactmessage" d'
          = Database.docs "contactmessage" d
            ++ [<["_id" := VObjectId (Database.next_id d)]> (ContactMessage.dump msg)]
        ∧ length (Database.docs "contactmessage" d')
          = S (length (Database.docs "contactmessage" d))
        ∧ (∀ coll, coll ≠ "contactmessage" →
             Database.docs coll d' = Database.docs coll d).
Proof.
  intros Hd.
  exists (Database.insert_one "contactmessage" (ContactMessage.dump msg) d).2.
  split; [|split; [|split]].
  - unfold submit_contact.
    rewrite (bind_ok get_state _ (Some d) (Some d) (Some d)) by done.
    unfold mbind, py_bind, create_document. by rewrite Hd.
  - apply docs_insert_one.
  - rewrite docs_insert_one, length_app. cbn. lia.
  - intros coll Hne. by apply docs_insert_one_ne.
Qed.

(** C5.  When the store is not configured [POST /contact] fails, for every
    contact message, with the server error [500] and the handle is as it
    was: nothing is inserted anywhere. *)
Theorem submit_contact_unconfigured (msg : ContactMessage.t) :
  submit_contact msg None
  = (Raise (HTTPException 500 "Database not configured"), None).
Proof. done. Qed.


Lemma strip_id_delete (doc : dict) : strip_id doc = delete "_id" doc.
Proof.
  apply map_eq. intros k. unfold strip_id.
  destruct (decide (k = "_id")) as [->|Hk].
  - rewrite lookup_delete_eq. apply map_lookup_filter_None. right. intros v _. cbn. auto.
  - rewrite lookup_delete_ne by done.
    destruct (doc !! k) as [v|] eqn:Hv.
    + by apply map_lookup_filter_Some.
    + apply map_lookup_filter_None. by left.
Qed.

(** C7.  Without query parameters, on a reachable store whose project
    documents all validate, [GET /projects] returns every stored project, in
    the order of the store: the i-th result is the i-th document, without
    its [_id], coerced through the [Project] schema.  The store is not
    changed. *)
Theorem list_projects_all (d : Database.t) (ps : list Project.t) :
  Database.unreachable d = None →
  Forall2 (λ doc p, Project.validate (delete "_id" doc) = Ok p)
    (Database.docs "project" d) ps →
  list_projects regex_search None None None (Some d) = (Ok ps, Some d)
  ∧ length ps = length (Database.docs "project" d).
Proof.
  intros Hd Hall. split; [|symmetry; by eapply Forall2_length].
  unfold list_projects.
  rewrite (bind_ok get_state _ (Some d) (Some d) (Some d)) by done.
  erewrite bind_ok; cycle 1.
  { unfold get_documents. rewrite Hd. change (list_projects_query None None None) with (∅ : dict).
    by rewrite filter_matches_empty. }
  rewrite mapM_lift. f_equal. apply mapM_result_Forall2.
  eapply Forall2_impl; [exact Hall|]. intros doc p Hp. by rewrite strip_id_delete.
Qed.

End Properties.


(** ** The schemas *)

(** C2 (amended).  The domain of a project is one of [ML], [Analytics],
    [Visualization], [NLP], [CV], [Time Series], [MLOps], [Other].  A valid
    payload stays valid under every one of these domains, a payload that
    validates has its domain among them, and a payload whose domain is any
    other value fails validation with an error on [domain]. *)
Theorem project_domain_enum (kwargs : dict) :
  Project.domains
  = ["ML"; "Analytics"; "Visualization"; "NLP"; "CV"; "Time Series"; "MLOps"; "Other"]
  ∧ (∀ p s, Project.validate kwargs = Ok p → s ∈ Project.domains →
       Project.validate (<["domain" := VStr s]> kwargs) = Ok (set_domain s p))
  ∧ (∀ p, Project.validate kwargs = Ok p →
       kwargs !! "domain" = Some (VStr (Project.domain p))
       ∧ Project.domain p ∈ Project.domains)
  ∧ (∀ v, kwargs !! "domain" = Some v → (∀ s, s ∈ Project.domains → v ≠ VStr s) →
       ∃ errs, Project.validate kwargs = Raise (ValidationError errs)
               ∧ ("domain", "literal_error") ∈ errs).
Proof.
  split; [done|]. split; [|split].
  - intros p s. apply project_domain_replaced.
  - intros p Hp. by destruct (project_valid_fields _ _ Hp) as (_ & _ & ? & ? & _).
  - intros v Hv Hout. apply has_error_raise. by eapply project_domain_rejected.
Qed.

(** C8 (amended).  [Project.stack], [Project.tags] and [BlogPost.topics]
    default to the empty list: a valid payload without the field validates
    with the field empty, and dropping the field from a valid payload keeps
    it valid.  [Publication.authors] has no default: a payload without it
    fails validation with an error on [authors]. *)
Theorem list_fields_default :
  (∀ kwargs p, Project.validate kwargs = Ok p →
     Project.validate (delete "stack" kwargs) = Ok (set_stack [] p)
     ∧ (kwargs !! "stack" = None → Project.stack p = []))
  ∧ (∀ kwargs p, Project.validate kwargs = Ok p →
       Project.validate (delete "tags" kwargs) = Ok (set_tags [] p)
       ∧ (kwargs !! "tags" = None → Project.tags p = []))
  ∧ (∀ kwargs b, BlogPost.validate kwargs = Ok b →
       BlogPost.validate (delete "topics" kwargs) = Ok (set_topics [] b)
       ∧ (kwargs !! "topics" = None → BlogPost.topics b = []))
  ∧ (∀ kwargs, kwargs !! "authors" = None →
       ∃ errs, Publication.validate kwargs = Raise (ValidationError errs)
               ∧ ("authors", "missing") ∈ errs).
Proof.
  split; [|split; [|split]].
  - intros kwargs p Hp. pose proof (project_stack_omitted _ _ Hp) as Hdel.
    split; [done|]. intros Hk. rewrite delete_id, Hp in Hdel by done.
    injection Hdel as Heq. by rewrite Heq.
  - intros kwargs p Hp. pose proof (project_tags_omitted _ _ Hp) as Hdel.
    split; [done|]. intros Hk. rewrite delete_id, Hp in Hdel by done.
    injection Hdel as Heq. by rewrite Heq.
  - intros kwargs b Hb. pose proof (blogpost_topics_omitted _ _ Hb) as Hdel.
    split; [done|]. intros Hk. rewrite delete_id, Hb in Hdel by done.
    injection Hdel as Heq. by rewrite Heq.
  - intros kwargs Hk. apply has_error_raise. by apply publication_authors_required.
Qed.

(** ** The diagnostic endpoint *)



(** ** The claims on concrete inputs *)



(** The text search of the specification's example: [q=churn] finds the
    project titled "Customer Churn Prediction" among the seeded ones. *)
Example list_projects_churn :
  (list_projects literal_search None None (Some "churn")
     (Some (seeded_store empty_store))).1
  = Ok [churn_model].
Proof. vm_compute; reflexivity. Qed.

(** C2 at the second sample project. *)
Lemma project_domain_enum_witness :
  Project.validate forecasting_sample = Ok forecasting_model
  ∧ Project.validate (<["domain" := VStr "NLP"]> forecasting_sample)
    = Ok (set_domain "NLP" forecasting_model)
  ∧ (∃ errs,
       Project.validate (<["domain" := VStr "TimeSeries"]> forecasting_sample)
       = Raise (ValidationError errs)
       ∧ ("domain", "literal_error") ∈ errs).
Proof.
  split; [vm_compute; reflexivity|]. split.
  - apply (proj1 (proj2 (project_domain_enum forecasting_sample))).
    + vm_compute; reflexivity.
    + apply (bool_decide_unpack _). vm_compute; exact I.
  - apply (proj2 (proj2 (proj2
        (project_domain_enum (<["domain" := VStr "TimeSeries"]> forecasting_sample))))
      (VStr "TimeSeries")).
    + vm_compute; reflexivity.
    + intros s Hs Heq. injection Heq as <-. revert Hs.
      apply (bool_decide_eq_false_1 ("TimeSeries" ∈ Project.domains)).
      vm_compute; reflexivity.
Defined.

(** C2 as stated fails: [TimeSeries], which the specification lists, is
    rejected, and [Time Series], which it does not list, is accepted. *)
Lemma spec_domain_TimeSeries_rejected :
  "TimeSeries" ∈ spec_domains
  ∧ Project.validate (<["domain" := VStr "TimeSeries"]> forecasting_sample)
    = Raise (ValidationError [("domain", "literal_error")])
  ∧ ("Time Series" ∉ spec_domains)
  ∧ forecasting_sample !! "domain" = Some (VStr "Time Series")
  ∧ Project.validate forecasting_sample = Ok forecasting_model.
Proof.
  split; [apply (bool_decide_unpack _); vm_compute; exact I|].
  split; [vm_compute; reflexivity|].
  split; [apply (bool_decide_eq_false_1 _); vm_compute; reflexivity|].
  split; vm_compute; reflexivity.
Qed.

(** C3 on a store that already holds one project: the project collection is
    left alone by the seeding. *)
Lemma seed_content_twice_witness :
  Database.docs "project" one_project_store ≠ []
  ∧ ∃ d', (seed_content literal_search (Some one_project_store)).2 = Some d'
          ∧ Database.docs "project" d' = Database.docs "project" one_project_store.
Proof.
  assert (Database.docs "project" one_project_store ≠ []) as Hne
    by (apply (length_not_nil _ 0); vm_compute; reflexivity).
  split; [exact Hne|].
  exact (proj1 (proj2 (seed_content_twice literal_search (Some one_project_store)))
           one_project_store "project" eq_refl Hne).
Defined.

(** Seeding the empty store fills the three collections with the 3, 2 and 4
    samples, and a second call adds nothing. *)
Example seed_content_counts :
  let once := (seed_content literal_search (Some empty_store)).2 in
  let twice := (seed_content literal_search once).2 in
  (λ d, (length (Database.docs "project" d), length (Database.docs "publication" d),
         length (Database.docs "blogpost" d))) <$> once = Some (3, 2, 4)%nat
  ∧ (λ d, (length (Database.docs "project" d), length (Database.docs "publication" d),
           length (Database.docs "blogpost" d))) <$> twice = Some (3, 2, 4)%nat.
Proof. split; vm_compute; reflexivity. Qed.

(** C4 on the empty store. *)
Lemma submit_contact_received_witness :
  Database.unreachable empty_store = None
  ∧ ∃ d', submit_contact sample_message (Some empty_store)
          = (Ok {| status := "received" |}, Some d')
        ∧ Database.docs "contactmessage" d'
          = Database.docs "contactmessage" empty_store
            ++ [<["_id" := VObjectId (Database.next_id empty_store)]>
                  (ContactMessage.dump sample_message)]
        ∧ length (Database.docs "contactmessage" d')
          = S (length (Database.docs "contactmessage" empty_store))
        ∧ (∀ coll, coll ≠ "contactmessage" →
             Database.docs coll d' = Database.docs coll empty_store).
Proof.
  split; [reflexivity|].
  apply (submit_contact_received sample_message empty_store). reflexivity.
Defined.

(** C7 on the seeded store: the three sample projects come back. *)
Lemma list_projects_all_witness :
  Database.unreachable (seeded_store empty_store) = None
  ∧ list_projects literal_search None None None (Some (seeded_store empty_store))
    = (Ok sample_models, Some (seeded_store empty_store))
  ∧ length sample_models = length (Database.docs "project" (seeded_store empty_store)).
Proof.
  split; [reflexivity|].
  apply (list_projects_all literal_search (seeded_store empty_store) sample_models).
  - reflexivity.
  - apply mapM_result_ok. vm_compute; reflexivity.
Defined.

(** A configured store that cannot be reached: the list endpoints hand the
    driver's error on. *)
Example list_projects_unreachable :
  let d := {| Database.name := "portfolio";
              Database.unreachable := Some "connection refused";
              Database.collections := ∅;
              Database.next_id := 0 |} in
  (list_projects literal_search None None None (Some d)).1
  = Raise (Exception "connection refused").
Proof. vm_compute; reflexivity. Qed.

(** C8 at the first sample project, a post and the first sample
    publication. *)
Lemma list_fields_default_witness :
  Project.validate churn_sample = Ok churn_model
  ∧ Project.validate (delete "stack" churn_sample) = Ok (set_stack [] churn_model)
  ∧ Project.validate (delete "tags" churn_sample) = Ok (set_tags [] churn_model)
  ∧ (∃ errs, Publication.validate (delete "authors" storytelling_sample)
             = Raise (ValidationError errs)
             ∧ ("authors", "missing") ∈ errs).
Proof.
  destruct list_fields_default as (Hstack & Htags & _ & Hauthors).
  split; [vm_compute; reflexivity|]. split; [|split].
  - apply (Hstack churn_sample churn_model). vm_compute; reflexivity.
  - apply (Htags churn_sample churn_model). vm_compute; reflexivity.
  - apply (Hauthors (delete "authors" storytelling_sample)). vm_compute; reflexivity.
Defined.

(** C8 as stated fails: the first sample publication is valid, and without
    its authors it is not. *)
Lemma publication_authors_no_default :
  (∃ pub, Publication.validate storytelling_sample = Ok pub)
  ∧ delete "authors" storytelling_sample !! "authors" = None
  ∧ Publication.validate (delete "authors" storytelling_sample)
    = Raise (ValidationError [("authors", "missing")]).
Proof.
  split; [eexists; vm_compute; reflexivity|].
  split; vm_compute; reflexivity.
Qed.


(** The database status [GET /test] answers with when the handle is unset;
    the initial status [Not Available] of the answer is overwritten on every
    path. *)
Example test_database_unset_status :
  ∃ response, test_database None ∅ = Ok response
    ∧ response !! "database" = Some (VStr "⚠️ Available but not initialized")
    ∧ response !! "connection_status" = Some (VStr "Not Connected")
    ∧ response !! "collections" = Some (VList []).
Proof. exists unset_response. repeat split; vm_compute; reflexivity. Qed.

(** C10 at the first sample project with its year set to [0], asked for by
    the year 2023. *)
Lemma falsy_parameters_absent_witness :
  year_zero_sample !! "year" = Some (VInt 0)
  ∧ is_Some (list_projects_query None (Some 2023%Z) None !! "year")
  ∧ matches literal_search (list_projects_query None (Some 2023%Z) None) year_zero_sample
    = false.
Proof.
  assert (year_zero_sample !! "year" = Some (VInt 0)) as Hdoc
    by (vm_compute; reflexivity).
  assert (is_Some (list_projects_query None (Some 2023%Z) None !! "year")) as Hclause
    by (eexists; vm_compute; reflexivity).
  split; [exact Hdoc|]. split; [exact Hclause|].
  exact (proj2 (proj2 (proj2 (proj2
    (falsy_parameters_absent literal_search None (Some 2023%Z) None))))
    year_zero_sample Hdoc Hclause).
Defined.

(** ** More on the schemas *)

(** Find the failing field in a chain of field checks. *)
Ltac report_error Hk :=
  first [ apply has_error_ap_r; eexists;
          split; [unfold field; rewrite Hk; reflexivity|apply list_elem_of_here]
        | apply has_error_ap_l; report_error Hk ].

Lemma all_items_strs (l : list string) : all_items str_type (VStr <$> l) = inr l.
Proof. induction l as [|s l IH]; cbn; [done|by rewrite IH]. Qed.

Lemma optional_url_valid (o : option value) (u : string) :
  with_default None (optional url_type) o = inr (Some u) →
  o = Some (VStr u) ∧ http_url u = true.
Proof.
  destruct o as [v|]; cbn; [|discriminate].
  destruct v; cbn; try discriminate.
  destruct (http_url s) eqn:Hurl; cbn; [|discriminate].
  by intros [= <-].
Qed.

Lemma optional_url_dump (o : option string) :
  (∀ u, o = Some u → http_url u = true) →
  optional url_type (dump_opt VStr o) = inr o.
Proof.
  destruct o as [u|]; cbn; [|done]. intros Hurl. by rewrite (Hurl u eq_refl).
Qed.

Lemma optional_dict_dump (o : option dict) : optional dict_type (dump_opt VDict o) = inr o.
Proof. by destruct o. Qed.

Lemma optional_str_dump (o : option string) : optional str_type (dump_opt VStr o) = inr o.
Proof. by destruct o. Qed.

(** A [Project] payload that lacks a field declared without a default fails
    validation, and the error names the field, whatever the other fields
    are. *)
Theorem project_required_missing (kwargs : dict) (f : string) :
  f ∈ project_required → kwargs !! f = None →
  ∃ errs, Project.validate kwargs = Raise (ValidationError errs)
          ∧ (f, "missing") ∈ errs.
Proof.
  intros Hf Hk. apply has_error_raise. unfold Project.check_fields, project_required in *.
  repeat (apply elem_of_cons in Hf as [->|Hf]; [report_error Hk|]).
  by apply elem_of_nil in Hf.
Qed.

Lemma project_required_missing_witness :
  "slug" ∈ project_required
  ∧ delete "slug" churn_sample !! "slug" = None
  ∧ ∃ errs, Project.validate (delete "slug" churn_sample) = Raise (ValidationError errs)
            ∧ ("slug", "missing") ∈ errs.
Proof.
  assert ("slug" ∈ project_required) as Hf
    by (apply (bool_decide_unpack _); vm_compute; exact I).
  assert (delete "slug" churn_sample !! "slug" = None) as Hk by apply lookup_delete_eq.
  split; [exact Hf|]. split; [exact Hk|].
  exact (project_required_missing (delete "slug" churn_sample) "slug" Hf Hk).
Defined.

(** The URL fields and the figure of a [Project] are optional: without the
    field, or with [None] for it, a valid payload stays valid and the field
    of the model is [None]. *)
Theorem project_optional_fields (kwargs : dict) (p : Project.t) :
  Project.validate kwargs = Ok p →
  Project.validate (delete "github_url" kwargs) = Ok (set_github_url None p)
  ∧ Project.validate (<["github_url" := VNone]> kwargs) = Ok (set_github_url None p)
  ∧ Project.validate (delete "demo_url" kwargs) = Ok (set_demo_url None p)
  ∧ Project.validate (<["demo_url" := VNone]> kwargs) = Ok (set_demo_url None p)
  ∧ Project.validate (delete "plotly_fig" kwargs) = Ok (set_plotly_fig None p)
  ∧ Project.validate (<["plotly_fig" := VNone]> kwargs) = Ok (set_plotly_fig None p).
Proof.
  intros H. unfold Project.validate, Project.check_fields in *. split_fields H.
  repeat split;
    rewrite ?field_delete_eq, ?field_insert_eq, ?field_delete_ne, ?field_insert_ne by done;
    cbn [with_default optional];
    repeat match goal with
           | Hf : field _ _ _ = Valid _ |- _ => rewrite ?Hf; clear Hf
           end;
    done.
Qed.

Lemma project_optional_fields_witness :
  Project.validate churn_sample = Ok churn_model
  ∧ Project.validate (delete "github_url" churn_sample) = Ok (set_github_url None churn_model)
  ∧ Project.validate (<["plotly_fig" := VNone]> churn_sample)
    = Ok (set_plotly_fig None churn_model).
Proof.
  assert (Project.validate churn_sample = Ok churn_model) as Hv by (vm_compute; reflexivity).
  destruct (project_optional_fields churn_sample churn_model Hv)
    as (Hurl & _ & _ & _ & _ & Hfig).
  split; [exact Hv|]. split; [exact Hurl|exact Hfig].
Defined.

(** A list field takes its default only when it is absent: [None] for
    [stack], [tags] or [topics] is an error on that field. *)
Theorem list_field_none_rejected (kwargs : dict) :
  (kwargs !! "stack" = Some VNone →
     ∃ errs, Project.validate kwargs = Raise (ValidationError errs)
             ∧ ("stack", "list_type") ∈ errs)
  ∧ (kwargs !! "tags" = Some VNone →
       ∃ errs, Project.validate kwargs = Raise (ValidationError errs)
               ∧ ("tags", "list_type") ∈ errs)
  ∧ (kwargs !! "topics" = Some VNone →
       ∃ errs, BlogPost.validate kwargs = Raise (ValidationError errs)
               ∧ ("topics", "list_type") ∈ errs).
Proof.
  repeat split; intros Hk; apply has_error_raise;
    unfold Project.check_fields, BlogPost.check_fields; report_error Hk.
Qed.

Lemma list_field_none_rejected_witness :
  <["tags" := VNone]> churn_sample !! "tags" = Some VNone
  ∧ ∃ errs, Project.validate (<["tags" := VNone]> churn_sample)
            = Raise (ValidationError errs)
            ∧ ("tags", "list_type") ∈ errs.
Proof.
  assert (<["tags" := VNone]> churn_sample !! "tags" = Some VNone) as Hk
    by apply lookup_insert_eq.
  split; [exact Hk|].
  exact (proj1 (proj2 (list_field_none_rejected (<["tags" := VNone]> churn_sample))) Hk).
Defined.

(** The year of a [Project] has no range check: a valid payload stays valid
    under every integer year, zero and negative years included. *)
Theorem project_year_any_integer (kwargs : dict) (p : Project.t) (z : Z) :
  Project.validate kwargs = Ok p →
  Project.validate (<["year" := VInt z]> kwargs) = Ok (set_year z p).
Proof.
  intros H. unfold Project.validate, Project.check_fields in *. split_fields H.
  rewrite field_insert_eq, !field_insert_ne by done.
  cbn [required int_type]. by reuse_fields.
Qed.

Lemma project_year_any_integer_witness :
  Project.validate churn_sample = Ok churn_model
  ∧ Project.validate (<["year" := VInt (-44)]> churn_sample) = Ok (set_year (-44) churn_model).
Proof.
  assert (Project.validate churn_sample = Ok churn_model) as Hv by (vm_compute; reflexivity).
  split; [exact Hv|].
  exact (project_year_any_integer churn_sample churn_model (-44) Hv).
Defined.

Lemma project_validate_insert_other (kwargs : dict) (k : string) (v : value) :
  k ∉ project_fields → Project.validate (<[k := v]> kwargs) = Project.validate kwargs.
Proof.
  intros Hk. unfold Project.validate, Project.check_fields.
  by rewrite !field_insert_ne
    by (intros ->; apply Hk; apply (bool_decide_unpack _); vm_compute; exact I).
Qed.

Lemma project_validate_delete_other (kwargs : dict) (k : string) :
  k ∉ project_fields → Project.validate (delete k kwargs) = Project.validate kwargs.
Proof.
  intros Hk. unfold Project.validate, Project.check_fields.
  by rewrite !field_delete_ne
    by (intros ->; apply Hk; apply (bool_decide_unpack _); vm_compute; exact I).
Qed.

Lemma id_not_project_field : "_id" ∉ project_fields.
Proof. apply (bool_decide_eq_false_1 _). vm_compute; reflexivity. Qed.

(** Keys that are not fields of [Project] are ignored: adding, changing or
    dropping one does not change the outcome of the validation.  In
    particular a stored document validates as it does without its [_id]. *)
Theorem project_extra_keys_ignored (kwargs : dict) (k : string) (v : value) :
  k ∉ project_fields →
  Project.validate (<[k := v]> kwargs) = Project.validate kwargs
  ∧ Project.validate (delete k kwargs) = Project.validate kwargs
  ∧ Project.validate (strip_id kwargs) = Project.validate kwargs.
Proof.
  intros Hk. split; [by apply project_validate_insert_other|].
  split; [by apply project_validate_delete_other|].
  rewrite strip_id_delete. apply project_validate_delete_other, id_not_project_field.
Qed.

Lemma project_extra_keys_ignored_witness :
  ("created_at" ∉ project_fields)
  ∧ Project.validate (<["created_at" := VStr "2024-05-11"]> churn_sample)
    = Project.validate churn_sample.
Proof.
  assert ("created_at" ∉ project_fields) as Hk
    by (apply (bool_decide_eq_false_1 _); vm_compute; reflexivity).
  split; [exact Hk|].
  exact (proj1 (project_extra_keys_ignored churn_sample "created_at" (VStr "2024-05-11") Hk)).
Defined.

Lemma project_dump_valid (kwargs : dict) (p : Project.t) :
  Project.validate kwargs = Ok p → Project.validate (Project.dump p) = Ok p.
Proof.
  intros H. unfold Project.validate, Project.check_fields in H. split_fields H.
  repeat match goal with
         | Hf : field _ _ _ = Valid _ |- _ => apply field_valid in Hf
         end.
  match goal with
  | Hf : required (literal Project.domains) _ = inr ?s |- _ =>
      assert (bool_decide (s ∈ Project.domains) = true) as Hdomain
  end.
  { destruct (kwargs !! "domain") as [[]|]; cbn in *; try discriminate.
    case_bool_decide; [|discriminate]. apply bool_decide_eq_true. congruence. }
  match goal with
  | Hf : with_default None (optional url_type) (kwargs !! "github_url") = inr ?o |- _ =>
      assert (∀ u, o = Some u → http_url u = true) as Hgithub
        by (intros u ->; by destruct (optional_url_valid _ _ Hf))
  end.
  match goal with
  | Hf : with_default None (optional url_type) (kwargs !! "demo_url") = inr ?o |- _ =>
      assert (∀ u, o = Some u → http_url u = true) as Hdemo
        by (intros u ->; by destruct (optional_url_valid _ _ Hf))
  end.
  unfold Project.validate, Project.check_fields, Project.dump, field.
  cbn [Project.title Project.slug Project.summary Project.domain Project.stack
       Project.year Project.problem Project.approach Project.dataset Project.model
       Project.results Project.impact Project.github_url Project.demo_url
       Project.tags Project.plotly_fig].
  repeat (rewrite lookup_insert_eq || rewrite lookup_insert_ne by done).
  cbn [required with_default str_type int_type literal list_type dump_strs].
  rewrite Hdomain, !all_items_strs, (optional_url_dump _ Hgithub),
    (optional_url_dump _ Hdemo), optional_dict_dump.
  reflexivity.
Qed.

(** Storing a validated project and validating what was stored gives the
    project back, also when the stored mapping carries an identifier of the
    store and is read with the identifier dropped. *)
Theorem project_dump_roundtrip (kwargs : dict) (p : Project.t) (id : value) :
  Project.validate kwargs = Ok p →
  Project.validate (Project.dump p) = Ok p
  ∧ Project.validate (strip_id (<["_id" := id]> (Project.dump p))) = Ok p.
Proof.
  intros H. pose proof (project_dump_valid _ _ H) as Hdump.
  split; [done|].
  rewrite strip_id_delete, project_validate_delete_other by apply id_not_project_field.
  by rewrite project_validate_insert_other by apply id_not_project_field.
Qed.

Lemma project_dump_roundtrip_witness :
  Project.validate churn_sample = Ok churn_model
  ∧ Project.validate (Project.dump churn_model) = Ok churn_model
  ∧ Project.validate (strip_id (<["_id" := VObjectId 7]> (Project.dump churn_model)))
    = Ok churn_model.
Proof.
  assert (Project.validate churn_sample = Ok churn_model) as Hv by (vm_compute; reflexivity).
  split; [exact Hv|].
  exact (project_dump_roundtrip churn_sample churn_model (VObjectId 7) Hv).
Defined.

(** The kind of a [Publication] defaults to [paper]; a valid payload stays
    valid under [paper], [talk] and [workshop], and a payload with any other
    kind fails validation with an error on [kind]. *)
Theorem publication_kind_enum (kwargs : dict) :
  (∀ pub, Publication.validate kwargs = Ok pub →
     Publication.validate (delete "kind" kwargs) = Ok (set_kind "paper" pub)
     ∧ (∀ s, s ∈ ["paper"; "talk"; "workshop"] →
          Publication.validate (<["kind" := VStr s]> kwargs) = Ok (set_kind s pub)))
  ∧ (∀ v, kwargs !! "kind" = Some v →
       v ≠ VStr "paper" → v ≠ VStr "talk" → v ≠ VStr "workshop" →
       ∃ errs, Publication.validate kwargs = Raise (ValidationError errs)
               ∧ ("kind", "literal_error") ∈ errs).
Proof.
  split.
  - intros pub H. unfold Publication.validate, Publication.check_fields in *.
    split_fields H. split.
    + rewrite field_delete_eq, !field_delete_ne by done.
      cbn [with_default]. by reuse_fields.
    + intros s Hs. rewrite field_insert_eq, !field_insert_ne by done.
      cbn [with_default literal]. unfold Publication.kinds.
      rewrite (bool_decide_true _ Hs). by reuse_fields.
  - intros v Hv Hpaper Htalk Hworkshop. apply has_error_raise.
    unfold Publication.check_fields. apply has_error_ap_r.
    exists [("kind", "literal_error")]. split; [|apply list_elem_of_here].
    unfold field. rewrite Hv. cbn [with_default].
    destruct v as [| | | |s| | |]; try done.
    unfold literal, Publication.kinds. case_bool_decide as Hs; [|done].
    repeat (apply elem_of_cons in Hs as [->|Hs]; [done|]).
    by apply elem_of_nil in Hs.
Qed.

Lemma publication_kind_enum_witness :
  (∃ pub, Publication.validate storytelling_sample = Ok pub
          ∧ Publication.validate (delete "kind" storytelling_sample)
            = Ok (set_kind "paper" pub))
  ∧ (∃ errs, Publication.validate (<["kind" := VStr "poster"]> storytelling_sample)
             = Raise (ValidationError errs)
             ∧ ("kind", "literal_error") ∈ errs).
Proof.
  split.
  - assert (is_ok (Publication.validate storytelling_sample)) as [pub Hv]
      by (eexists; vm_compute; reflexivity).
    exists pub. split; [exact Hv|].
    exact (proj1 (proj1 (publication_kind_enum storytelling_sample) pub Hv)).
  - apply (proj2 (publication_kind_enum (<["kind" := VStr "poster"]> storytelling_sample))
             (VStr "poster")); [apply lookup_insert_eq|discriminate..].
Defined.

(** The date of a [BlogPost] is any string: a valid payload stays valid
    whatever string is given for [published_at]. *)
Theorem blogpost_published_at_any_string (kwargs : dict) (b : BlogPost.t) (s : string) :
  BlogPost.validate kwargs = Ok b →
  BlogPost.validate (<["published_at" := VStr s]> kwargs) = Ok (set_published_at s b).
Proof.
  intros H. unfold BlogPost.validate, BlogPost.check_fields in *. split_fields H.
  rewrite field_insert_eq, !field_insert_ne by done.
  cbn [required str_type]. by reuse_fields.
Qed.

Lemma blogpost_published_at_any_string_witness :
  ∃ b, BlogPost.validate ethics_sample = Ok b
       ∧ BlogPost.validate (<["published_at" := VStr "next week"]> ethics_sample)
         = Ok (set_published_at "next week" b).
Proof.
  assert (is_ok (BlogPost.validate ethics_sample)) as [b Hv]
    by (eexists; vm_compute; reflexivity).
  exists b. split; [exact Hv|].
  exact (blogpost_published_at_any_string ethics_sample b "next week" Hv).
Defined.

(** A payload is a valid [ContactMessage] exactly when [name], [email] and
    [message] are strings and [source] is absent, [None] or a string; the
    email is not checked for its format. *)
Theorem contact_message_valid_iff (kwargs : dict) (m : ContactMessage.t) :
  ContactMessage.validate kwargs = Ok m
  ↔ kwargs !! "name" = Some (VStr (ContactMessage.name m))
    ∧ kwargs !! "email" = Some (VStr (ContactMessage.email m))
    ∧ kwargs !! "message" = Some (VStr (ContactMessage.message m))
    ∧ match ContactMessage.source m with
      | Some s => kwargs !! "source" = Some (VStr s)
      | None => kwargs !! "source" = None ∨ kwargs !! "source" = Some VNone
      end.
Proof.
  split.
  - intros H. unfold ContactMessage.validate, ContactMessage.check_fields in H.
    split_fields H.
    repeat match goal with
           | Hf : field _ _ _ = Valid _ |- _ => apply field_valid in Hf
           end.
    cbn [ContactMessage.name ContactMessage.email ContactMessage.message
         ContactMessage.source].
    repeat split.
    + destruct (kwargs !! "name") as [[]|]; cbn in *; congruence.
    + destruct (kwargs !! "email") as [[]|]; cbn in *; congruence.
    + destruct (kwargs !! "message") as [[]|]; cbn in *; congruence.
    + destruct (kwargs !! "source") as [[]|]; cbn in *;
        match goal with
        | Hs : _ = inr ?o |- _ => injection Hs as <-
        | Hs : inl _ = inr _ |- _ => discriminate
        end; auto.
  - destruct m as [n e msg src]. cbn. intros (Hn & He & Hm & Hs).
    unfold ContactMessage.validate, ContactMessage.check_fields, field.
    rewrite Hn, He, Hm. destruct src as [s|]; [by rewrite Hs|].
    by destruct Hs as [-> | ->].
Qed.

Lemma contact_message_valid_iff_witness :
  ContactMessage.validate sample_message_payload
  = Ok (ContactMessage.Build "Ada" "not an address" "Hello" None).
Proof.
  apply (proj2 (contact_message_valid_iff sample_message_payload
                  (ContactMessage.Build "Ada" "not an address" "Hello" None))).
  repeat split; try (vm_compute; reflexivity). left. vm_compute; reflexivity.
Defined.

(** Every contact message validates back from the mapping it is stored
    as. *)
Theorem contact_message_dump_roundtrip (m : ContactMessage.t) :
  ContactMessage.validate (ContactMessage.dump m) = Ok m.
Proof.
  destruct m as [n e msg src].
  unfold ContactMessage.validate, ContactMessage.check_fields, ContactMessage.dump, field.
  cbn [ContactMessage.name ContactMessage.email ContactMessage.message
       ContactMessage.source].
  repeat (rewrite lookup_insert_eq || rewrite lookup_insert_ne by done).
  cbn [required with_default str_type]. by rewrite optional_str_dump.
Qed.

(** The age of a [User] is optional and bounded: a valid payload stays valid
    without an age, with [None], and with an integer from 0 to 120; with an
    integer below 0 or above 120 it fails with an error on [age].  Without
    [is_active] the user is active. *)
Theorem user_age_bounds (kwargs : dict) (u : User.t) :
  User.validate kwargs = Ok u →
  User.validate (delete "age" kwargs) = Ok (set_age None u)
  ∧ User.validate (<["age" := VNone]> kwargs) = Ok (set_age None u)
  ∧ (∀ z, (0 ≤ z ≤ 120)%Z →
       User.validate (<["age" := VInt z]> kwargs) = Ok (set_age (Some z) u))
  ∧ (∀ z, (z < 0)%Z →
       User.validate (<["age" := VInt z]> kwargs)
       = Raise (ValidationError [("age", "greater_than_equal")]))
  ∧ (∀ z, (120 < z)%Z →
       User.validate (<["age" := VInt z]> kwargs)
       = Raise (ValidationError [("age", "less_than_equal")]))
  ∧ User.validate (delete "is_active" kwargs) = Ok (set_is_active true u).
Proof.
  intros H. unfold User.validate, User.check_fields in *. split_fields H.
  repeat split; try intros z Hz;
    rewrite ?field_delete_eq, ?field_insert_eq, ?field_delete_ne, ?field_insert_ne by done;
    cbn [with_default optional int_between];
    repeat match goal with
           | Hf : field _ _ _ = Valid _ |- _ => rewrite ?Hf; clear Hf
           end;
    try done.
  - destruct (Z.ltb_spec z 0); [lia|]. destruct (Z.ltb_spec 120 z); [lia|]. done.
  - destruct (Z.ltb_spec z 0); [|lia]. done.
  - destruct (Z.ltb_spec z 0); [lia|]. destruct (Z.ltb_spec 120 z); [|lia]. done.
Qed.

Lemma user_age_bounds_witness :
  User.validate sample_user = Ok sample_user_model
  ∧ User.validate (<["age" := VInt 120]> sample_user)
    = Ok (set_age (Some 120%Z) sample_user_model)
  ∧ User.validate (<["age" := VInt 121]> sample_user)
    = Raise (ValidationError [("age", "less_than_equal")]).
Proof.
  assert (User.validate sample_user = Ok sample_user_model) as Hv
    by (vm_compute; reflexivity).
  destruct (user_age_bounds sample_user sample_user_model Hv)
    as (_ & _ & Hin & _ & Hhigh & _).
  split; [exact Hv|]. split; [apply Hin; lia|apply Hhigh; lia].
Defined.

(** ** More on the handlers *)

Lemma mapM_result_filter {A B} (f : A → result B) (keep : A → bool) (keep' : B → bool)
    (l : list A) (k : list B) :
  Forall2 (λ x y, f x = Ok y ∧ keep x = keep' y) l k →
  mapM f (List.filter keep l) = Ok (List.filter keep' k).
Proof.
  induction 1 as [|x y l k [Hxy Hkeep] _ IH]; [done|].
  cbn [List.filter]. rewrite <- Hkeep. destruct (keep x); [|done].
  cbn. rewrite Hxy. cbn. by rewrite IH.
Qed.

Lemma mapM_result_raise {A B} (f : A → result B) (l : list A) :
  Exists (λ x, ¬ is_ok (f x)) l → ∃ e x, x ∈ l ∧ f x = Raise e ∧ mapM f l = Raise e.
Proof.
  induction 1 as [x l Hx|x l _ IH].
  - destruct (f x) as [y|e] eqn:Hfx; [destruct Hx; by exists y|].
    exists e, x. split; [apply list_elem_of_here|]. split; [done|]. cbn. by rewrite Hfx.
  - destruct (f x) as [y|e] eqn:Hfx.
    + destruct IH as (e & x' & Hin & Hx' & Hall). exists e, x'.
      split; [by apply list_elem_of_further|]. split; [done|].
      cbn. rewrite Hfx. cbn. by rewrite Hall.
    + exists e, x. split; [apply list_elem_of_here|]. split; [done|]. cbn. by rewrite Hfx.
Qed.

Lemma mapM_result_is_ok {A B} (f : A → result B) (l : list A) :
  Forall (λ x, is_ok (f x)) l → ∃ k, mapM f l = Ok k ∧ length k = length l.
Proof.
  induction 1 as [|x l [y Hy] _ (k & Hk & Hlen)]; [by exists []|].
  exists (y :: k). cbn. rewrite Hy. cbn. rewrite Hk. cbn. by rewrite Hlen.
Qed.

Lemma to_result_raise {A} (c : checked A) (e : exn) :
  to_result c = Raise e → ∃ errs, e = ValidationError errs.
Proof. destruct c as [a|errs]; cbn; [discriminate|]. intros [= <-]. by exists errs. Qed.

Lemma publication_validate_delete_id (doc : dict) :
  Publication.validate (delete "_id" doc) = Publication.validate doc.
Proof.
  unfold Publication.validate, Publication.check_fields.
  by rewrite !field_delete_ne by done.
Qed.

Lemma blogpost_validate_delete_id (doc : dict) :
  BlogPost.validate (delete "_id" doc) = BlogPost.validate doc.
Proof.
  unfold BlogPost.validate, BlogPost.check_fields.
  by rewrite !field_delete_ne by done.
Qed.

Lemma contact_validate_delete_id (doc : dict) :
  ContactMessage.validate (delete "_id" doc) = ContactMessage.validate doc.
Proof.
  unfold ContactMessage.validate, ContactMessage.check_fields.
  by rewrite !field_delete_ne by done.
Qed.

Lemma contact_dump_valid (m : ContactMessage.t) :
  ContactMessage.validate (ContactMessage.dump m) = Ok m.
Proof.
  destruct m as [n e msg src].
  unfold ContactMessage.validate, ContactMessage.check_fields, ContactMessage.dump, field.
  cbn [ContactMessage.name ContactMessage.email ContactMessage.message
       ContactMessage.source].
  repeat (rewrite lookup_insert_eq || rewrite lookup_insert_ne by done).
  cbn [required with_default str_type]. by rewrite optional_str_dump.
Qed.

Section Handlers.

Variable regex_search : string → string → string → bool.

Lemma matches_valid_project (domain : option string) (year : option Z) (q : option string)
    (doc : dict) (p : Project.t) :
  Project.validate doc = Ok p →
  matches regex_search (list_projects_query domain year q) doc
  = spec_project_filter regex_search (given_str domain) (given_int year) (given_str q) p.
Proof.
  intros Hp. rewrite matches_list_projects_query.
  destruct (project_valid_fields _ _ Hp) as (Ht & Hs & Hd & _ & Hy & _ & Htags).
  unfold spec_project_filter.
  destruct (given_str domain) as [s|], (given_int year) as [y|], (given_str q) as [pattern|];
    cbn [from_option];
    rewrite ?(field_eq_str _ _ _ _ Hd), ?(field_eq_int _ _ _ _ Hy),
      ?(field_regex_str _ _ _ _ _ _ Ht), ?(field_regex_str _ _ _ _ _ _ Hs),
      ?(field_regex_strs _ _ _ _ _ _ Htags);
    done.
Qed.

Lemma get_documents_reachable (coll : string) (query : dict) (d : Database.t) :
  Database.unreachable d = None →
  get_documents regex_search coll query (Some d)
  = (Ok (List.filter (matches regex_search query) (Database.docs coll d)), Some d).
Proof. intros Hd. unfold get_documents. by rewrite Hd. Qed.

(** On a reachable store whose project documents all validate,
    [GET /projects] returns exactly the stored projects that satisfy the
    given parameters, in the order of the store: those of the given domain,
    of the given year, and in whose title, summary or tags the given text is
    found. *)
Theorem list_projects_selects (domain : option string) (year : option Z) (q : option string)
    (d : Database.t) (ps : list Project.t) :
  Database.unreachable d = None →
  Forall2 (λ doc p, Project.validate (delete "_id" doc) = Ok p)
    (Database.docs "project" d) ps →
  list_projects regex_search domain year q (Some d)
  = (Ok (List.filter
           (spec_project_filter regex_search
              (given_str domain) (given_int year) (given_str q)) ps),
     Some d).
Proof.
  intros Hd Hall. unfold list_projects.
  rewrite (bind_ok get_state _ (Some d) (Some d) (Some d)) by done.
  erewrite bind_ok by by apply get_documents_reachable.
  rewrite mapM_lift. f_equal. apply mapM_result_filter.
  eapply Forall2_impl; [exact Hall|]. intros doc p Hp. cbn beta.
  split; [by rewrite strip_id_delete|].
  apply matches_valid_project.
  by rewrite <- (project_validate_delete_other doc "_id" id_not_project_field).
Qed.

(** One stored project document that does not validate makes
    [GET /projects] fail as a whole, with the validation error of a stored
    document; the valid projects are not returned. *)
Theorem list_projects_invalid_document (d : Database.t) :
  Database.unreachable d = None →
  Exists (λ doc, ¬ is_ok (Project.validate doc)) (Database.docs "project" d) →
  ∃ errs doc, doc ∈ Database.docs "project" d
    ∧ Project.validate doc = Raise (ValidationError errs)
    ∧ list_projects regex_search None None None (Some d)
      = (Raise (ValidationError errs), Some d).
Proof.
  intros Hd Hbad. unfold list_projects.
  rewrite (bind_ok get_state _ (Some d) (Some d) (Some d)) by done.
  erewrite bind_ok by by apply get_documents_reachable.
  change (list_projects_query None None None) with (∅ : dict).
  rewrite filter_matches_empty, mapM_lift.
  destruct (mapM_result_raise (λ doc, Project.validate (strip_id doc))
              (Database.docs "project" d)) as (e & doc & Hin & Hdoc & Hall).
  { eapply Exists_impl; [exact Hbad|]. intros doc Hdoc. cbn beta.
    by rewrite strip_id_delete, project_validate_delete_other
      by apply id_not_project_field. }
  rewrite strip_id_delete, project_validate_delete_other in Hdoc
    by apply id_not_project_field.
  destruct (to_result_raise _ _ Hdoc) as [errs ->].
  exists errs, doc. by rewrite Hall.
Qed.

(** The list endpoints only read: whatever they answer, the handle and the
    store are as before. *)
Theorem list_endpoints_read_only (domain : option string) (year : option Z)
    (q : option string) (db : option Database.t) :
  (list_projects regex_search domain year q db).2 = db
  ∧ (list_publications regex_search db).2 = db
  ∧ (list_blog regex_search db).2 = db.
Proof.
  destruct db as [d|]; [|done].
  unfold list_projects, list_publications, list_blog.
  rewrite !(bind_ok get_state _ (Some d) (Some d) (Some d)) by done.
  destruct (Database.unreachable d) as [msg|] eqn:Hd.
  - repeat split;
      by erewrite bind_raise by (unfold get_documents; by rewrite Hd).
  - repeat split;
      erewrite bind_ok by (by apply get_documents_reachable);
      by rewrite mapM_lift.
Qed.

(** On a reachable store whose publication documents all validate,
    [GET /publications] returns every stored publication, in the order of
    the store, without its [_id] and coerced through the schema. *)
Theorem list_publications_all (d : Database.t) (pubs : list Publication.t) :
  Database.unreachable d = None →
  Forall2 (λ doc pub, Publication.validate (delete "_id" doc) = Ok pub)
    (Database.docs "publication" d) pubs →
  list_publications regex_search (Some d) = (Ok pubs, Some d)
  ∧ length pubs = length (Database.docs "publication" d).
Proof.
  intros Hd Hall. split; [|symmetry; by eapply Forall2_length].
  unfold list_publications.
  rewrite (bind_ok get_state _ (Some d) (Some d) (Some d)) by done.
  erewrite bind_ok by by apply get_documents_reachable.
  rewrite filter_matches_empty, mapM_lift. f_equal. apply mapM_result_Forall2.
  eapply Forall2_impl; [exact Hall|]. intros doc pub Hpub. by rewrite strip_id_delete.
Qed.

(** On a reachable store whose post documents all validate, [GET /blog]
    returns every stored post, in the order of the store, without its [_id]
    and coerced through the schema. *)
Theorem list_blog_all (d : Database.t) (posts : list BlogPost.t) :
  Database.unreachable d = None →
  Forall2 (λ doc post, BlogPost.validate (delete "_id" doc) = Ok post)
    (Database.docs "blogpost" d) posts →
  list_blog regex_search (Some d) = (Ok posts, Some d)
  ∧ length posts = length (Database.docs "blogpost" d).
Proof.
  intros Hd Hall. split; [|symmetry; by eapply Forall2_length].
  unfold list_blog.
  rewrite (bind_ok get_state _ (Some d) (Some d) (Some d)) by done.
  erewrite bind_ok by by apply get_documents_reachable.
  rewrite filter_matches_empty, mapM_lift. f_equal. apply mapM_result_Forall2.
  eapply Forall2_impl; [exact Hall|]. intros doc post Hpost. by rewrite strip_id_delete.
Qed.

End Handlers.

(** ** More on seeding and on the contact form *)

Lemma docs_insert_all_prefix (coll coll' : string) (items : list dict) (d : Database.t) :
  Database.docs coll' d `prefix_of` Database.docs coll' (insert_all coll items d).
Proof.
  revert d. induction items as [|doc items IH]; intros d; [done|].
  rewrite insert_all_cons. etrans; [|apply IH].
  destruct (decide (coll = coll')) as [->|Hne].
  - rewrite docs_insert_one. by apply prefix_app_r.
  - by rewrite docs_insert_one_ne.
Qed.

Lemma docs_seeded_prefix (coll coll' : string) (items : list dict) (d : Database.t) :
  Database.docs coll' d `prefix_of` Database.docs coll' (seeded coll items d).
Proof. unfold seeded. case_bool_decide; [apply docs_insert_all_prefix|done]. Qed.

Lemma insert_all_name (coll : string) (items : list dict) (d : Database.t) :
  Database.name (insert_all coll items d) = Database.name d.
Proof.
  revert d. induction items as [|doc items IH]; intros d; [done|].
  by rewrite insert_all_cons, IH.
Qed.

Lemma seeded_name (coll : string) (items : list dict) (d : Database.t) :
  Database.name (seeded coll items d) = Database.name d.
Proof. unfold seeded. case_bool_decide; [apply insert_all_name|done]. Qed.

Lemma length_docs_seeded (coll : string) (items : list dict) (d : Database.t) :
  length (Database.docs coll (seeded coll items d))
  = if bool_decide (Database.docs coll d = []) then length items
    else length (Database.docs coll d).
Proof.
  unfold seeded. case_bool_decide as Hempty; [|done].
  by rewrite length_docs_insert_all, Hempty.
Qed.

Lemma Forall_docs_insert_all (P : dict → Prop) (coll : string) (items : list dict)
    (d : Database.t) :
  Forall P (Database.docs coll d) →
  (∀ item n, item ∈ items → P (<["_id" := VObjectId n]> item)) →
  Forall P (Database.docs coll (insert_all coll items d)).
Proof.
  revert d. induction items as [|doc items IH]; intros d Hd Hitems; [done|].
  rewrite insert_all_cons. apply IH.
  - rewrite docs_insert_one. apply Forall_app. split; [done|].
    apply Forall_singleton, Hitems, list_elem_of_here.
  - intros item n Hin. by apply Hitems, list_elem_of_further.
Qed.

Lemma Forall_docs_seeded (P : dict → Prop) (coll : string) (items : list dict)
    (d : Database.t) :
  Forall P (Database.docs coll d) →
  (∀ item n, item ∈ items → P (<["_id" := VObjectId n]> item)) →
  Forall P (Database.docs coll (seeded coll items d)).
Proof.
  intros Hd Hitems. unfold seeded. case_bool_decide; [|done].
  by apply Forall_docs_insert_all.
Qed.

Lemma sample_models_valid (p : Project.t) :
  p ∈ sample_models → ∃ kwargs, Project.validate kwargs = Ok p.
Proof.
  intros Hp. pose proof (mapM_result_ok _ _ _ sample_projects_valid) as Hall.
  apply list_elem_of_lookup in Hp as [i Hi].
  destruct (Forall2_lookup_r _ _ _ _ _ Hall Hi) as (kwargs & _ & Hk).
  by exists kwargs.
Qed.

Lemma stored_sample_project_valid (item : dict) (n : N) :
  item ∈ Project.dump <$> sample_models →
  is_ok (Project.validate (<["_id" := VObjectId n]> item)).
Proof.
  intros (p & -> & Hp)%list_elem_of_fmap.
  destruct (sample_models_valid p Hp) as [kwargs Hk]. exists p.
  rewrite project_validate_insert_other by apply id_not_project_field.
  by eapply project_dump_valid.
Qed.

Lemma stored_sample_publication_valid (item : dict) (n : N) :
  item ∈ sample_publications →
  is_ok (Publication.validate (<["_id" := VObjectId n]> item)).
Proof.
  intros Hin.
  assert (Publication.validate (<["_id" := VObjectId n]> item) = Publication.validate item)
    as -> by (unfold Publication.validate, Publication.check_fields;
              by rewrite !field_insert_ne by done).
  unfold sample_publications in Hin.
  repeat (apply elem_of_cons in Hin as [->|Hin]; [eexists; vm_compute; reflexivity|]).
  by apply elem_of_nil in Hin.
Qed.

Lemma stored_sample_post_valid (item : dict) (n : N) :
  item ∈ sample_posts → is_ok (BlogPost.validate (<["_id" := VObjectId n]> item)).
Proof.
  intros Hin.
  assert (BlogPost.validate (<["_id" := VObjectId n]> item) = BlogPost.validate item)
    as -> by (unfold BlogPost.validate, BlogPost.check_fields;
              by rewrite !field_insert_ne by done).
  unfold sample_posts in Hin.
  repeat (apply elem_of_cons in Hin as [->|Hin]; [eexists; vm_compute; reflexivity|]).
  by apply elem_of_nil in Hin.
Qed.

Section Seeding.

Variable regex_search : string → string → string → bool.

(** [POST /seed] never removes or changes a stored document: in every
    collection the documents held before are the first documents held
    after, and a collection other than [project], [publication] and
    [blogpost] holds exactly what it held.  This is so whether the call
    answers or raises. *)
Theorem seed_content_keeps_documents (d : Database.t) (coll : string) :
  ∃ d', (seed_content regex_search (Some d)).2 = Some d'
    ∧ Database.docs coll d `prefix_of` Database.docs coll d'
    ∧ (coll ≠ "project" → coll ≠ "publication" → coll ≠ "blogpost" →
         Database.docs coll d' = Database.docs coll d)
    ∧ Database.name d' = Database.name d
    ∧ Database.unreachable d' = Database.unreachable d.
Proof.
  destruct (Database.unreachable d) as [msg|] eqn:Hd.
  - exists d. by rewrite (seed_content_unreachable regex_search d msg Hd).
  - exists (seeded_store d). rewrite (seed_content_reachable regex_search d Hd).
    split; [done|]. unfold seeded_store. split; [|split; [|split]].
    + etrans; [|apply docs_seeded_prefix]. etrans; [|apply docs_seeded_prefix].
      apply docs_seeded_prefix.
    + intros ???. by rewrite !docs_seeded_ne by done.
    + by rewrite !seeded_name.
    + by rewrite !seeded_unreachable.
Qed.

(** On a reachable store [POST /seed] treats the three collections
    independently of each other: an empty [project] collection receives 3
    documents, an empty [publication] collection 2 and an empty [blogpost]
    collection 4, and each collection that is not empty keeps its size,
    whatever the state of the other two. *)
Theorem seed_content_sizes (d : Database.t) :
  Database.unreachable d = None →
  ∃ d', seed_content regex_search (Some d) = (Ok (dict_of [("status", VStr "ok")]), Some d')
    ∧ length (Database.docs "project" d')
      = (if bool_decide (Database.docs "project" d = []) then 3
         else length (Database.docs "project" d))%nat
    ∧ length (Database.docs "publication" d')
      = (if bool_decide (Database.docs "publication" d = []) then 2
         else length (Database.docs "publication" d))%nat
    ∧ length (Database.docs "blogpost" d')
      = (if bool_decide (Database.docs "blogpost" d = []) then 4
         else length (Database.docs "blogpost" d))%nat.
Proof.
  intros Hd. exists (seeded_store d). split; [by apply seed_content_reachable|].
  assert (length (Project.dump <$> sample_models) = 3%nat) as Hmodels
    by (vm_compute; reflexivity).
  unfold seeded_store. split; [|split].
  - rewrite (docs_seeded_ne "blogpost" "project") by done.
    rewrite (docs_seeded_ne "publication" "project") by done.
    by rewrite length_docs_seeded, Hmodels.
  - rewrite (docs_seeded_ne "blogpost" "publication") by done.
    by rewrite length_docs_seeded, (docs_seeded_ne "project" "publication").
  - rewrite length_docs_seeded.
    by rewrite (docs_seeded_ne "publication" "blogpost"),
      (docs_seeded_ne "project" "blogpost").
Qed.

End Seeding.

Lemma seed_content_sizes_witness :
  Database.unreachable one_project_store = None
  ∧ ∃ d', seed_content literal_search (Some one_project_store)
          = (Ok (dict_of [("status", VStr "ok")]), Some d')
    ∧ length (Database.docs "project" d') = 1%nat
    ∧ length (Database.docs "publication" d') = 2%nat
    ∧ length (Database.docs "blogpost" d') = 4%nat.
Proof.
  split; [reflexivity|].
  destruct (seed_content_sizes literal_search one_project_store eq_refl)
    as (d' & Hseed & Hproject & Hpublication & Hpost).
  exists d'. split; [exact Hseed|].
  split; [exact Hproject|]. split; [exact Hpublication|exact Hpost].
Defined.


Section Content.

Variable regex_search : string → string → string → bool.

(** Seeding keeps the stored content readable: on a reachable store whose
    project, publication and post documents all validate, the three list
    endpoints answer after [POST /seed] without an error, each with as many
    entries as its collection holds and with at least one. *)
Theorem seeded_content_listed (d : Database.t) :
  Database.unreachable d = None →
  Forall (λ doc, is_ok (Project.validate doc)) (Database.docs "project" d) →
  Forall (λ doc, is_ok (Publication.validate doc)) (Database.docs "publication" d) →
  Forall (λ doc, is_ok (BlogPost.validate doc)) (Database.docs "blogpost" d) →
  ∃ d' ps pubs posts,
    (seed_content regex_search (Some d)).2 = Some d'
    ∧ list_projects regex_search None None None (Some d') = (Ok ps, Some d')
    ∧ list_publications regex_search (Some d') = (Ok pubs, Some d')
    ∧ list_blog regex_search (Some d') = (Ok posts, Some d')
    ∧ length ps = length (Database.docs "project" d') ∧ ps ≠ []
    ∧ length pubs = length (Database.docs "publication" d') ∧ pubs ≠ []
    ∧ length posts = length (Database.docs "blogpost" d') ∧ posts ≠ [].
Proof.
  intros Hd Hprojects Hpublications Hposts.
  assert (Database.unreachable (seeded_store d) = None) as Hd'
    by by rewrite seeded_store_unreachable.
  assert (Forall (λ doc, is_ok (Project.validate (strip_id doc)))
            (Database.docs "project" (seeded_store d))) as Hps.
  { unfold seeded_store. rewrite !docs_seeded_ne by done.
    apply Forall_docs_seeded.
    - eapply Forall_impl; [exact Hprojects|]. intros doc Hdoc. cbn beta.
      by rewrite strip_id_delete, project_validate_delete_other
        by apply id_not_project_field.
    - intros item n Hin.
      rewrite strip_id_delete, project_validate_delete_other
        by apply id_not_project_field.
      by apply stored_sample_project_valid. }
  assert (Forall (λ doc, is_ok (Publication.validate (strip_id doc)))
            (Database.docs "publication" (seeded_store d))) as Hpubs.
  { unfold seeded_store. rewrite (docs_seeded_ne "blogpost" "publication") by done.
    apply Forall_docs_seeded.
    - rewrite docs_seeded_ne by done.
      eapply Forall_impl; [exact Hpublications|]. intros doc Hdoc. cbn beta.
      by rewrite strip_id_delete, publication_validate_delete_id.
    - intros item n Hin. rewrite strip_id_delete, publication_validate_delete_id.
      by apply stored_sample_publication_valid. }
  assert (Forall (λ doc, is_ok (BlogPost.validate (strip_id doc)))
            (Database.docs "blogpost" (seeded_store d))) as Hbl.
  { unfold seeded_store. apply Forall_docs_seeded.
    - rewrite !docs_seeded_ne by done.
      eapply Forall_impl; [exact Hposts|]. intros doc Hdoc. cbn beta.
      by rewrite strip_id_delete, blogpost_validate_delete_id.
    - intros item n Hin. rewrite strip_id_delete, blogpost_validate_delete_id.
      by apply stored_sample_post_valid. }
  destruct (mapM_result_is_ok _ _ Hps) as (ps & Hmps & Hlps).
  destruct (mapM_result_is_ok _ _ Hpubs) as (pubs & Hmpubs & Hlpubs).
  destruct (mapM_result_is_ok _ _ Hbl) as (posts & Hmposts & Hlposts).
  exists (seeded_store d), ps, pubs, posts.
  split; [by rewrite seed_content_reachable|].
  unfold list_projects, list_publications, list_blog.
  rewrite !(bind_ok get_state _ (Some (seeded_store d)) (Some (seeded_store d))
              (Some (seeded_store d))) by done.
  change (list_projects_query None None None) with (∅ : dict).
  split; [|split; [|split]].
  - erewrite bind_ok by by apply get_documents_reachable.
    by rewrite filter_matches_empty, mapM_lift, Hmps.
  - erewrite bind_ok by by apply get_documents_reachable.
    by rewrite filter_matches_empty, mapM_lift, Hmpubs.
  - erewrite bind_ok by by apply get_documents_reachable.
    by rewrite filter_matches_empty, mapM_lift, Hmposts.
  - assert (∀ {A B} (k : list A) (l : list B),
              length k = length l → l ≠ [] → k ≠ []) as Hne
      by (intros A B [|] [|]; cbn; congruence).
    repeat split; try done.
    + apply (Hne _ _ _ _ Hlps). unfold seeded_store.
      rewrite !docs_seeded_ne by done. apply seeded_nonempty.
      apply (length_not_nil _ 2). vm_compute; reflexivity.
    + apply (Hne _ _ _ _ Hlpubs). unfold seeded_store.
      rewrite (docs_seeded_ne "blogpost" "publication") by done.
      by apply seeded_nonempty.
    + apply (Hne _ _ _ _ Hlposts). unfold seeded_store. by apply seeded_nonempty.
Qed.

(** A submitted contact message can be read back: on a reachable store the
    document [POST /contact] stores is the last one the store returns for
    the collection [contactmessage], it carries the identifier of the
    store, and without the identifier it validates to the message that was
    submitted. *)
Theorem submit_contact_read_back (msg : ContactMessage.t) (d : Database.t) :
  Database.unreachable d = None →
  ∃ d' stored,
    (submit_contact msg (Some d)).2 = Some d'
    ∧ get_documents regex_search "contactmessage" ∅ (Some d')
      = (Ok (Database.docs "contactmessage" d ++ [stored]), Some d')
    ∧ stored !! "_id" = Some (VObjectId (Database.next_id d))
    ∧ strip_id stored = ContactMessage.dump msg
    ∧ ContactMessage.validate (strip_id stored) = Ok msg.
Proof.
  intros Hd.
  exists (Database.insert_one "contactmessage" (ContactMessage.dump msg) d).2,
    (<["_id" := VObjectId (Database.next_id d)]> (ContactMessage.dump msg)).
  assert (ContactMessage.dump msg !! "_id" = None) as Hfresh.
  { unfold ContactMessage.dump. by rewrite !lookup_insert_ne by done. }
  split; [|split; [|split; [|split]]].
  - unfold submit_contact.
    rewrite (bind_ok get_state _ (Some d) (Some d) (Some d)) by done.
    unfold mbind, py_bind, create_document. by rewrite Hd.
  - rewrite get_documents_reachable by done.
    by rewrite filter_matches_empty, docs_insert_one.
  - apply lookup_insert_eq.
  - by rewrite strip_id_delete, delete_insert_eq, delete_id.
  - rewrite strip_id_delete, delete_insert_eq, delete_id by done.
    apply contact_dump_valid.
Qed.

(** [POST /contact] does not look for an earlier copy: on a reachable store
    the same message submitted twice is stored twice, both calls answer
    [received], and the two documents differ in their identifier only. *)
Theorem submit_contact_twice (msg : ContactMessage.t) (d : Database.t) :
  Database.unreachable d = None →
  ∃ d1 d2 first second,
    submit_contact msg (Some d) = (Ok {| status := "received" |}, Some d1)
    ∧ submit_contact msg (Some d1) = (Ok {| status := "received" |}, Some d2)
    ∧ Database.docs "contactmessage" d2
      = Database.docs "contactmessage" d ++ [first; second]
    ∧ strip_id first = strip_id second
    ∧ first !! "_id" ≠ second !! "_id".
Proof.
  intros Hd.
  set (d1 := (Database.insert_one "contactmessage" (ContactMessage.dump msg) d).2).
  set (d2 := (Database.insert_one "contactmessage" (ContactMessage.dump msg) d1).2).
  exists d1, d2, (<["_id" := VObjectId (Database.next_id d)]> (ContactMessage.dump msg)),
    (<["_id" := VObjectId (Database.next_id d1)]> (ContactMessage.dump msg)).
  split; [|split; [|split; [|split]]].
  - unfold submit_contact.
    rewrite (bind_ok get_state _ (Some d) (Some d) (Some d)) by done.
    unfold mbind, py_bind, create_document. by rewrite Hd.
  - unfold submit_contact.
    rewrite (bind_ok get_state _ (Some d1) (Some d1) (Some d1)) by done.
    assert (Database.unreachable d1 = None) as Hd1 by exact Hd.
    unfold mbind, py_bind, create_document. by rewrite Hd1.
  - unfold d2. rewrite docs_insert_one. unfold d1 at 1. rewrite docs_insert_one.
    by rewrite <- app_assoc.
  - by rewrite !strip_id_delete, !delete_insert_eq.
  - rewrite !lookup_insert_eq. unfold d1. cbn [Database.insert_one snd Database.next_id].
    intros [= Heq]. lia.
Qed.

End Content.

Lemma seeded_content_listed_witness :
  ∃ d' ps pubs posts,
    (seed_content literal_search (Some empty_store)).2 = Some d'
    ∧ list_projects literal_search None None None (Some d') = (Ok ps, Some d')
    ∧ list_publications literal_search (Some d') = (Ok pubs, Some d')
    ∧ list_blog literal_search (Some d') = (Ok posts, Some d')
    ∧ length ps = length (Database.docs "project" d') ∧ ps ≠ []
    ∧ length pubs = length (Database.docs "publication" d') ∧ pubs ≠ []
    ∧ length posts = length (Database.docs "blogpost" d') ∧ posts ≠ [].
Proof.
  apply (seeded_content_listed literal_search empty_store);
    [reflexivity|vm_compute; constructor..].
Defined.

Lemma submit_contact_read_back_witness :
  ∃ d' stored,
    (submit_contact sample_message (Some empty_store)).2 = Some d'
    ∧ get_documents literal_search "contactmessage" ∅ (Some d')
      = (Ok (Database.docs "contactmessage" empty_store ++ [stored]), Some d')
    ∧ stored !! "_id" = Some (VObjectId (Database.next_id empty_store))
    ∧ strip_id stored = ContactMessage.dump sample_message
    ∧ ContactMessage.validate (strip_id stored) = Ok sample_message.
Proof.
  apply (submit_contact_read_back literal_search sample_message empty_store). reflexivity.
Defined.

Lemma submit_contact_twice_witness :
  ∃ d1 d2 first second,
    submit_contact sample_message (Some empty_store)
    = (Ok {| status := "received" |}, Some d1)
    ∧ submit_contact sample_message (Some d1) = (Ok {| status := "received" |}, Some d2)
    ∧ Database.docs "contactmessage" d2
      = Database.docs "contactmessage" empty_store ++ [first; second]
    ∧ strip_id first = strip_id second
    ∧ first !! "_id" ≠ second !! "_id".
Proof. apply (submit_contact_twice sample_message empty_store). reflexivity. Defined.

(** ** More on the diagnostic endpoint *)

Lemma str_take_length (n : nat) (s : string) :
  String.length (str_take n s) = n `min` String.length s.
Proof.
  revert s. induction n as [|n IH]; intros [|c s]; cbn; try done.
  by rewrite IH.
Qed.

Lemma str_take_all (n : nat) (s : string) :
  (String.length s ≤ n)%nat → str_take n s = s.
Proof.
  revert s. induction n as [|n IH]; intros [|c s]; cbn; try done; [lia|].
  intros Hlen. rewrite IH; [done|lia].
Qed.

Lemma str_take_drop (n : nat) (s : string) : str_take n s +:+ str_drop n s = s.
Proof.
  revert s. induction n as [|n IH]; intros [|c s]; try done.
  cbn [str_take str_drop].
  change (String c (str_take n s +:+ str_drop n s) = String c s).
  by rewrite IH.
Qed.

Lemma test_database_unset (env : gmap string string) :
  test_database None env = Ok unset_response.
Proof. by vm_compute. Qed.

Lemma test_database_probe_failed (d : Database.t) (env : gmap string string) (msg : string) :
  Database.unreachable d = Some msg →
  test_database (Some d) env
  = Ok (<["database" := VStr ("⚠️ Connected but error: " +:+ str_take 80 msg)]>
        (<["connection_status" := VStr "Connected"]>
         (<["database_name" :=
             VStr (if truthy_str (Some (Database.name d)) then Database.name d
                   else if truthy_str (getenv env "DATABASE_NAME") then "✅ Set"
                   else "❌ Not Set")]>
          (<["database_url" :=
              VStr (if truthy_str (getenv env "DATABASE_URL") then "✅ Set"
                    else "❌ Not Set")]>
           (<["database" := VStr "✅ Connected & Working"]>
            (<["backend" := VStr "✅ Running"]>
             (<["database" := VStr "❌ Not Available"]>
              (<["database_url" := VNone]>
               (<["database_name" := VNone]>
                (<["connection_status" := VStr "Not Connected"]>
                 (<["collections" := VList []]> ∅))))))))))).
Proof.
  intros Hd.
  unfold test_database, try_except, list_collection_names, lift, modify,
    mbind, py_bind, get_state. rewrite Hd. reflexivity.
Qed.

Lemma test_database_probed (d : Database.t) (env : gmap string string) :
  Database.unreachable d = None →
  test_database (Some d) env
  = Ok (<["collections" :=
           VList (VStr <$> take 10 (map_to_list (Database.collections d)).*1)]>
        (<["connection_status" := VStr "Connected"]>
         (<["database_name" :=
             VStr (if truthy_str (Some (Database.name d)) then Database.name d
                   else if truthy_str (getenv env "DATABASE_NAME") then "✅ Set"
                   else "❌ Not Set")]>
          (<["database_url" :=
              VStr (if truthy_str (getenv env "DATABASE_URL") then "✅ Set"
                    else "❌ Not Set")]>
           (<["database" := VStr "✅ Connected & Working"]>
            (<["backend" := VStr "✅ Running"]>
             (<["database" := VStr "❌ Not Available"]>
              (<["database_url" := VNone]>
               (<["database_name" := VNone]>
                (<["connection_status" := VStr "Not Connected"]>
                 (<["collections" := VList []]> ∅))))))))))).
Proof.
  intros Hd.
  unfold test_database, try_except, list_collection_names, lift, modify,
    mbind, py_bind, get_state. rewrite Hd. reflexivity.
Qed.

(** Solve a lookup or a domain in a chain of inserts with literal keys. *)
Ltac lookup_inserts :=
  repeat (rewrite lookup_insert_eq || rewrite lookup_insert_ne by done).

(** The answer of [GET /test] always has the same six keys, and its
    [backend] entry always reads [Running].  Its database status is never
    the text [Not Available] the answer starts with, and never an [Error:]
    text: the handler of the outer [try] is never entered. *)
Theorem test_database_shape (db : option Database.t) (env : gmap string string) :
  ∃ response, test_database db env = Ok response
    ∧ dom response = response_keys
    ∧ response !! "backend" = Some (VStr "✅ Running")
    ∧ response !! "database" ≠ Some (VStr "❌ Not Available")
    ∧ (∀ text, response !! "database" ≠ Some (VStr ("❌ Error: " +:+ text))).
Proof.
  destruct db as [d|].
  - destruct (Database.unreachable d) as [msg|] eqn:Hd.
    + eexists. split; [by apply test_database_probe_failed|].
      split; [rewrite !dom_insert_L, dom_empty_L; unfold response_keys; set_solver|].
      split; [by lookup_inserts|]. split; [|intros text]; by lookup_inserts.
    + eexists. split; [by apply test_database_probed|].
      split; [rewrite !dom_insert_L, dom_empty_L; unfold response_keys; set_solver|].
      split; [by lookup_inserts|]. split; [|intros text]; by lookup_inserts.
  - exists unset_response. split; [apply test_database_unset|].
    split; [|split; [by vm_compute|split; [|intros text]; by vm_compute]].
    unfold unset_response, dict_of. cbn [list_to_map foldr uncurry fst snd].
    rewrite !dom_insert_L, dom_empty_L. unfold response_keys. set_solver.
Qed.

(** With a configured handle [GET /test] reports [Connected] before it
    probes the store, and the report stays when the probe fails.  Whether
    the probe fails or not, the database URL is reported as set exactly when
    [DATABASE_URL] is set to a string that is not empty, and the database
    name is the name of the handle, or, when that is empty, whether
    [DATABASE_NAME] is set. *)
Theorem test_database_configured (d : Database.t) (env : gmap string string) :
  ∃ response, test_database (Some d) env = Ok response
    ∧ response !! "connection_status" = Some (VStr "Connected")
    ∧ response !! "database_url"
      = Some (VStr (match env !! "DATABASE_URL" with
                    | Some (String _ _) => "✅ Set"
                    | _ => "❌ Not Set"
                    end))
    ∧ response !! "database_name"
      = Some (VStr (match Database.name d, env !! "DATABASE_NAME" with
                    | String _ _, _ => Database.name d
                    | "", Some (String _ _) => "✅ Set"
                    | "", _ => "❌ Not Set"
                    end)).
Proof.
  destruct (Database.unreachable d) as [msg|] eqn:Hd.
  - eexists. split; [by apply test_database_probe_failed|].
    split; [by lookup_inserts|]. unfold getenv. split; lookup_inserts.
    + by destruct (env !! "DATABASE_URL") as [[|]|].
    + by destruct (Database.name d), (env !! "DATABASE_NAME") as [[|]|].
  - eexists. split; [by apply test_database_probed|].
    split; [by lookup_inserts|]. unfold getenv. split; lookup_inserts.
    + by destruct (env !! "DATABASE_URL") as [[|]|].
    + by destruct (Database.name d), (env !! "DATABASE_NAME") as [[|]|].
Qed.

(** When the probe of the store raises, the database status of [GET /test]
    ends with a prefix of the error message of at most 80 characters, and
    with the whole message when that has at most 80 characters. *)
Theorem test_database_error_truncated (d : Database.t) (env : gmap string string)
    (msg : string) :
  Database.unreachable d = Some msg →
  ∃ response shown rest,
    test_database (Some d) env = Ok response
    ∧ response !! "database" = Some (VStr ("⚠️ Connected but error: " +:+ shown))
    ∧ msg = shown +:+ rest
    ∧ String.length shown = 80 `min` String.length msg
    ∧ ((String.length msg ≤ 80)%nat → shown = msg).
Proof.
  intros Hd. eexists _, (str_take 80 msg), (str_drop 80 msg).
  split; [by apply test_database_probe_failed|].
  split; [by lookup_inserts|].
  split; [by rewrite str_take_drop|].
  split; [apply str_take_length|apply str_take_all].
Qed.

Lemma test_database_error_truncated_witness :
  ∃ response shown rest,
    test_database (Some unreachable_store) ∅ = Ok response
    ∧ response !! "database" = Some (VStr ("⚠️ Connected but error: " +:+ shown))
    ∧ "connection refused" = shown +:+ rest
    ∧ String.length shown = 80 `min` String.length "connection refused"
    ∧ ((String.length "connection refused" ≤ 80)%nat → shown = "connection refused").
Proof.
  apply (test_database_error_truncated unreachable_store ∅ "connection refused").
  reflexivity.
Defined.
